(** * Microwave cooking-time converter (script.js)

    A shallow embedding of the conversion logic of [script.js]: the
    [MicrowaveConverter] class (validation of the four number inputs, the
    energy-equivalency formula, the rendering of the result) and the [Utils]
    object (power-level recommendation), followed by the properties the
    specification states about them, and by further properties of the
    script: its input handlers, [resetForm], the Escape key, the quick-select
    buttons and [Utils.formatCookingTime].

    Numbers.  Every number the script handles starts as an integer read by
    [parseInt]/[parseFloat] from a number input.  Integers are modelled by
    [Z]; the two quotients the script forms ([originalTotalSeconds *
    originalWattage / targetWattage] and [originalWattage / targetWattage])
    are modelled by exact rationals [Q], where the script has the nearest
    double; section [HostDivision] shows that on valid requests the values
    the script derives from a quotient ([Math.round], [Math.floor], the
    comparisons with [1.5] and [0.7]) are the same for both.  A quotient by
    zero ([Infinity] or [NaN] in the script) is outside the model: every
    statement about a quotient assumes a positive divisor.

    The page.  The script keeps its state in the page: the contents of the
    inputs, the classes and error messages of their containers, the result
    section.  Methods are functions of the page (see [Script]); scrolling,
    focus and [console.log] are not modelled. *)

From Stdlib Require Import ZArith QArith Qround.
From Stdlib Require Import String Ascii List Bool Lia DecimalString.
From Stdlib Require DecimalZ DecimalPos.
Import ListNotations.

Open Scope Z_scope.

(** ** Host functions used by the script *)

Module JS.

(** [Math.round]: the nearest integer, a tie going towards +infinity. *)
Definition Math_round (x : Q) : Z := Qfloor (x + (1 # 2)).

(** [Math.floor]. *)
Definition Math_floor (x : Q) : Z := Qfloor x.

(** [a % b] on integers: the remainder takes the sign of the dividend. *)
Definition rem (a b : Z) : Z := Z.rem a b.

(** The text a template literal inserts for an integer: its decimal
    digits, after a minus sign when it is negative. *)
Definition toString (n : Z) : string := NilZero.string_of_int (Z.to_int n).

(** The ASCII part of the white space that [trim] removes. *)
Definition isWhiteSpace (c : ascii) : bool :=
  match nat_of_ascii c with
  | 9%nat | 10%nat | 11%nat | 12%nat | 13%nat | 32%nat => true
  | _ => false
  end.

Fixpoint trimStart (s : string) : string :=
  match s with
  | EmptyString => EmptyString
  | String c rest => if isWhiteSpace c then trimStart rest else s
  end.

Fixpoint trimEnd (s : string) : string :=
  match s with
  | EmptyString => EmptyString
  | String c rest =>
      match trimEnd rest with
      | EmptyString => if isWhiteSpace c then EmptyString
                       else String c EmptyString
      | kept => String c kept
      end
  end.

(** [s.trim()]. *)
Definition trim (s : string) : string := trimEnd (trimStart s).

(** [s.includes(part)]: [part] occurs somewhere in [s]. *)
Fixpoint includes (s part : string) : bool :=
  prefix part s ||
  match s with
  | EmptyString => false
  | String _ rest => includes rest part
  end.

(** A number that may be [NaN]: [None] is [NaN]. *)
Definition number : Type := option Z.

(** [parseFloat] and [parseInt] on the content of a number input, which is
    empty ([None]) or an integer: the integer, and [NaN] when empty. *)
Definition parseFloat (text : option Z) : number := text.
Definition parseInt (text : option Z) : number := text.

(** [!text]: the content is the empty string. *)
Definition isEmpty (text : option Z) : bool :=
  match text with
  | None => true
  | Some _ => false
  end.

(** [n || 0]: [NaN] and [0] both give [0]. *)
Definition orZero (n : number) : Z :=
  match n with
  | Some z => z
  | None => 0
  end.

(** Comparisons of a possibly-[NaN] number with a constant; a comparison
    with [NaN] is false. *)
Definition lt (x : number) (n : Z) : bool :=
  match x with Some z => z <? n | None => false end.
Definition le (x : number) (n : Z) : bool :=
  match x with Some z => z <=? n | None => false end.
Definition gt (x : number) (n : Z) : bool :=
  match x with Some z => n <? z | None => false end.

End JS.

(** ** The conversion formula *)

(** The object built by [getFormData]. *)
Record FormData : Type := mkFormData {
  originalWattage : Z;
  originalMinutes : Z;
  originalSeconds : Z;
  targetWattage : Z
}.

(** The object returned by [calculateConversion]. *)
Record Conversion : Type := mkConversion {
  originalTotalSeconds : Z;
  newTotalSeconds : Z;
  newMinutes : Z;
  newSeconds : Z;
  ratio : Q
}.

Definition calculateConversion (data : FormData) : Conversion :=
  let originalTotalSeconds :=
    (originalMinutes data * 60) + originalSeconds data in
  let newTotalSeconds :=
    JS.Math_round (inject_Z (originalTotalSeconds * originalWattage data)
                   / inject_Z (targetWattage data)) in
  let newMinutes := JS.Math_floor (inject_Z newTotalSeconds / inject_Z 60) in
  let newSeconds := JS.rem newTotalSeconds 60 in
  {| originalTotalSeconds := originalTotalSeconds;
     newTotalSeconds := newTotalSeconds;
     newMinutes := newMinutes;
     newSeconds := newSeconds;
     ratio := inject_Z (originalWattage data) / inject_Z (targetWattage data) |}.

(** ** The page

    The part of [index.html] the script reads and writes: the four number
    inputs, the containers that carry the [error]/[success] classes and the
    [.error-message] elements, and the result section. *)

Module Dom.

Inductive InputId : Type :=
| OriginalWattage
| OriginalMinutes
| OriginalSeconds
| TargetWattage.

(** The [id] attribute of each input. *)
Definition id (input : InputId) : string :=
  match input with
  | OriginalWattage => "originalWattage"
  | OriginalMinutes => "originalMinutes"
  | OriginalSeconds => "originalSeconds"
  | TargetWattage => "targetWattage"
  end.

(** [input.hasAttribute('required')]: only the two wattage inputs carry
    the attribute in [index.html]. *)
Definition required (input : InputId) : bool :=
  match input with
  | OriginalWattage | TargetWattage => true
  | OriginalMinutes | OriginalSeconds => false
  end.

(** The three [.input-group] elements of the form and the [.time-row]
    inside the second one. *)
Inductive ContainerId : Type :=
| RecipeGroup
| CookingTimeGroup
| TimeRow
| MicrowaveGroup.

(** [input.closest('.input-group') || input.closest('.form-group')]: every
    input lies in an [.input-group]; both time inputs lie in the same one. *)
Definition closest_group (input : InputId) : ContainerId :=
  match input with
  | OriginalWattage => RecipeGroup
  | OriginalMinutes | OriginalSeconds => CookingTimeGroup
  | TargetWattage => MicrowaveGroup
  end.

(** What the script changes on a container: two classes and the text of
    the [.error-message] element appended to it, when there is one. *)
Record Container : Type := mkContainer {
  classError : bool;
  classSuccess : bool;
  errorMessage : option string
}.

(** The content of a number input is empty ([None]) or an integer. *)
Record Page : Type := mkPage {
  value : InputId -> option Z;
  container : ContainerId -> Container;
  resultTime : string;
  resultExplanation : string;
  resultHidden : bool
}.

Definition InputId_eqb (a b : InputId) : bool :=
  match a, b with
  | OriginalWattage, OriginalWattage
  | OriginalMinutes, OriginalMinutes
  | OriginalSeconds, OriginalSeconds
  | TargetWattage, TargetWattage => true
  | _, _ => false
  end.

Definition ContainerId_eqb (a b : ContainerId) : bool :=
  match a, b with
  | RecipeGroup, RecipeGroup
  | CookingTimeGroup, CookingTimeGroup
  | TimeRow, TimeRow
  | MicrowaveGroup, MicrowaveGroup => true
  | _, _ => false
  end.

Definition setValue (input : InputId) (v : option Z) (p : Page) : Page :=
  {| value := fun i => if InputId_eqb i input then v else value p i;
     container := container p;
     resultTime := resultTime p;
     resultExplanation := resultExplanation p;
     resultHidden := resultHidden p |}.

Definition setContainer (g : ContainerId) (c : Container) (p : Page) : Page :=
  {| value := value p;
     container := fun h => if ContainerId_eqb h g then c else container p h;
     resultTime := resultTime p;
     resultExplanation := resultExplanation p;
     resultHidden := resultHidden p |}.

(** [g.querySelector('.error-message')]: the first [.error-message] below
    [g] in document order, named by the container it was appended to.  The
    [.time-row] comes before anything appended to the group around it. *)
Definition querySelector_error_message (g : ContainerId) (p : Page)
  : option ContainerId :=
  let own := match errorMessage (container p g) with
             | Some _ => Some g
             | None => None
             end in
  match g with
  | CookingTimeGroup =>
      match errorMessage (container p TimeRow) with
      | Some _ => Some TimeRow
      | None => own
      end
  | _ => own
  end.

Definition plain : Container :=
  {| classError := false; classSuccess := false; errorMessage := None |}.

(** The page as loaded, with the given contents typed into the inputs. *)
Definition loaded (values : InputId -> option Z) : Page :=
  {| value := values;
     container := fun _ => plain;
     resultTime := "";
     resultExplanation := "";
     resultHidden := true |}.

End Dom.

Import Dom.

(** Typing the four integers of a request into the inputs of a page. *)
Definition enter (data : FormData) (p : Page) : Page :=
  {| value := fun input =>
                match input with
                | OriginalWattage => Some (originalWattage data)
                | OriginalMinutes => Some (originalMinutes data)
                | OriginalSeconds => Some (originalSeconds data)
                | TargetWattage => Some (targetWattage data)
                end;
     container := container p;
     resultTime := resultTime p;
     resultExplanation := resultExplanation p;
     resultHidden := resultHidden p |}.

(** The page as loaded, holding a request. *)
Definition pageOf (data : FormData) : Page :=
  enter data (loaded (fun _ => None)).

(** ** Methods that change the page

    A method is a function of the page that gives its return value, the page
    it leaves, and the errors it has shown: each call of [showError] is
    recorded with its container and message, so that a later [clearErrors]
    on the same container does not hide which rule rejected the form. *)

Record Outcome (A : Type) : Type := mkOutcome {
  returned : A;
  page : Page;
  shown : list (ContainerId * string)
}.

Arguments mkOutcome {A} _ _ _.
Arguments returned {A} _.
Arguments page {A} _.
Arguments shown {A} _.

Definition Script (A : Type) : Type := Page -> Outcome A.

Definition ret {A : Type} (a : A) : Script A :=
  fun p => mkOutcome a p [].

Definition bind {A B : Type} (m : Script A) (f : A -> Script B) : Script B :=
  fun p =>
    let o1 := m p in
    let o2 := f (returned o1) (page o1) in
    mkOutcome (returned o2) (page o2) (shown o1 ++ shown o2).

Definition read {A : Type} (f : Page -> A) : Script A :=
  fun p => mkOutcome (f p) p [].

Definition modify (f : Page -> Page) : Script unit :=
  fun p => mkOutcome tt (f p) [].

Definition record_error (g : ContainerId) (message : string) : Script unit :=
  fun p => mkOutcome tt p [(g, message)].

Declare Scope script_scope.
Delimit Scope script_scope with script.
Notation "x <- m ;; k" := (bind m (fun x => k))
  (at level 61, m at next level, right associativity) : script_scope.
Notation "m ;; k" := (bind m (fun _ => k))
  (at level 61, right associativity) : script_scope.
Open Scope script_scope.

(** ** The class [MicrowaveConverter] *)

Open Scope string_scope.

(** The handlers installed by [addInputFormatting]: they run on every
    [input] event, before any validation, and rewrite the content of the
    input they are attached to. *)
Definition wattageInputHandler (input : InputId) (p : Page) : Page :=
  let parsed := JS.parseInt (value p input) in
  let p1 := if JS.gt parsed 2000 then setValue input (Some 2000) p else p in
  if JS.lt parsed 0 then setValue input None p1 else p1.

Definition secondsInputHandler (p : Page) : Page :=
  let parsed := JS.parseInt (value p OriginalSeconds) in
  let p1 := if JS.gt parsed 59
            then setValue OriginalSeconds (Some 59) p else p in
  if JS.lt parsed 0 then setValue OriginalSeconds (Some 0) p1 else p1.

Definition minutesInputHandler (p : Page) : Page :=
  let parsed := JS.parseInt (value p OriginalMinutes) in
  let p1 := if JS.gt parsed 60
            then setValue OriginalMinutes (Some 60) p else p in
  if JS.lt parsed 0 then setValue OriginalMinutes (Some 0) p1 else p1.

(** [errorMsg.remove()] for the element found by [querySelector]. *)
Definition removeErrorMessage (fieldGroup : ContainerId) (p : Page) : Page :=
  match querySelector_error_message fieldGroup p with
  | Some holder =>
      let c := container p holder in
      setContainer holder
        {| classError := classError c;
           classSuccess := classSuccess c;
           errorMessage := None |} p
  | None => p
  end.

Definition setClasses (g : ContainerId) (error success : bool) (p : Page)
  : Page :=
  setContainer g
    {| classError := error;
       classSuccess := success;
       errorMessage := errorMessage (container p g) |} p.

Definition showError (fieldGroup : ContainerId) (message : string)
  : Script unit :=
  modify (setClasses fieldGroup true false) ;;
  errorMsg <- read (querySelector_error_message fieldGroup) ;;
  let holder := match errorMsg with
                | Some found => found
                | None => fieldGroup
                end in
  modify (fun p =>
            let c := container p holder in
            setContainer holder
              {| classError := classError c;
                 classSuccess := classSuccess c;
                 errorMessage := Some message |} p) ;;
  record_error fieldGroup message.

Definition showSuccess (fieldGroup : ContainerId) : Script unit :=
  modify (setClasses fieldGroup false true) ;;
  modify (removeErrorMessage fieldGroup).

Definition clearErrors (input : InputId) : Script unit :=
  let fieldGroup := closest_group input in
  modify (setClasses fieldGroup false false) ;;
  modify (removeErrorMessage fieldGroup).

Definition validateInput (input : InputId) : Script bool :=
  text <- read (fun p => value p input) ;;
  let parsed := JS.parseFloat text in
  let fieldGroup := closest_group input in
  clearErrors input ;;
  if required input && (JS.isEmpty text || JS.le parsed 0)
  then showError fieldGroup "This field is required" ;; ret false
  else if JS.includes (id input) "Wattage" && JS.lt parsed 100
  then showError fieldGroup "Wattage must be at least 100 watts" ;; ret false
  else if JS.includes (id input) "Wattage" && JS.gt parsed 2000
  then showError fieldGroup "Wattage must be 2000 watts or less" ;; ret false
  else if String.eqb (id input) "originalSeconds" && JS.gt parsed 59
  then showError fieldGroup "Seconds must be between 0-59" ;; ret false
  else if String.eqb (id input) "originalMinutes" && JS.gt parsed 60
  then showError fieldGroup "Minutes should be reasonable (≤60)" ;; ret false
  else showSuccess fieldGroup ;; ret true.

(** [form.querySelectorAll('input[type="number"]')], in document order. *)
Definition inputs : list InputId :=
  [OriginalWattage; OriginalMinutes; OriginalSeconds; TargetWattage].

(** The [forEach] of [validateForm], threading [isValid]. *)
Fixpoint validateInputs (remaining : list InputId) (isValid : bool)
  : Script bool :=
  match remaining with
  | [] => ret isValid
  | input :: rest =>
      ok <- validateInput input ;;
      validateInputs rest (if negb ok then false else isValid)
  end.

Definition validateForm : Script bool :=
  isValid <- validateInputs inputs true ;;
  minutes <-
    read (fun p => JS.orZero (JS.parseInt (value p OriginalMinutes))) ;;
  seconds <-
    read (fun p => JS.orZero (JS.parseInt (value p OriginalSeconds))) ;;
  if (minutes =? 0)%Z && (seconds =? 0)%Z
  then showError TimeRow "Please specify at least some cooking time" ;;
       ret false
  else ret isValid.

(** [getFormData]; [None] stands for an object with a [NaN] wattage, read
    from an empty wattage input. *)
Definition getFormData (p : Page) : option FormData :=
  match JS.parseInt (value p OriginalWattage),
        JS.parseInt (value p TargetWattage) with
  | Some original, Some target =>
      Some {| originalWattage := original;
              originalMinutes :=
                JS.orZero (JS.parseInt (value p OriginalMinutes));
              originalSeconds :=
                JS.orZero (JS.parseInt (value p OriginalSeconds));
              targetWattage := target |}
  | _, _ => None
  end.

Definition formatTime (minutes seconds : Z) : string :=
  let timeStr := "" in
  let timeStr := if (0 <? minutes)%Z
                 then timeStr ++ JS.toString minutes ++ "m " else timeStr in
  let timeStr := if (0 <? seconds)%Z || (minutes =? 0)%Z
                 then timeStr ++ JS.toString seconds ++ "s" else timeStr in
  JS.trim timeStr.

(** The three strings [displayResult] builds, under the names of its local
    variables. *)
Definition timeString (result : Conversion) : string :=
  let timeString := "" in
  let timeString := if (0 <? newMinutes result)%Z
                    then timeString ++ JS.toString (newMinutes result) ++ "m "
                    else timeString in
  timeString ++ JS.toString (newSeconds result) ++ "s".

Definition originalTimeStr (formData : FormData) : string :=
  formatTime (originalMinutes formData) (originalSeconds formData).

Definition explanation (result : Conversion) (formData : FormData) : string :=
  "Cook for " ++ timeString result
  ++ " instead of " ++ originalTimeStr formData.

(** [displayResult]; scrolling and the [console.log] of [trackConversion]
    leave the page as it is. *)
Definition displayResult (result : Conversion) (formData : FormData)
  : Script unit :=
  modify (fun p =>
            {| value := value p;
               container := container p;
               resultTime := timeString result;
               resultExplanation := explanation result formData;
               resultHidden := false |}).

(** [handleSubmit].  After a successful [validateForm] both wattage inputs
    are filled, so the [None] branch is never taken (see
    [validateForm_getFormData]). *)
Definition handleSubmit : Script unit :=
  valid <- validateForm ;;
  if negb valid then ret tt
  else
    formData <- read getFormData ;;
    match formData with
    | Some formData =>
        let result := calculateConversion formData in
        displayResult result formData
    | None => ret tt
    end.

(** The two listeners of an [input] event on a number input, in the order
    they were added: the [clearErrors] of [addInputValidation], then the
    handler of [addInputFormatting]. *)
Definition formattingHandler (input : InputId) : Page -> Page :=
  match input with
  | OriginalWattage | TargetWattage => wattageInputHandler input
  | OriginalSeconds => secondsInputHandler
  | OriginalMinutes => minutesInputHandler
  end.

Definition inputEvent (input : InputId) : Script unit :=
  clearErrors input ;;
  modify (formattingHandler input).


(** [form.reset()]: every input goes back to the [value] attribute it has
    in [index.html]. *)
Definition defaultValue (input : InputId) : option Z :=
  match input with
  | OriginalWattage => None
  | OriginalMinutes => Some 0%Z
  | OriginalSeconds => Some 0%Z
  | TargetWattage => Some 700%Z
  end.

Definition form_reset (p : Page) : Page :=
  {| value := defaultValue;
     container := container p;
     resultTime := resultTime p;
     resultExplanation := resultExplanation p;
     resultHidden := resultHidden p |}.

(** [form.querySelectorAll('.input-group, .form-group')], in document
    order: the [.time-row] is not among them. *)
Definition formGroups : list ContainerId :=
  [RecipeGroup; CookingTimeGroup; MicrowaveGroup].

(** The [forEach] of [resetForm] over the groups. *)
Fixpoint clearGroups (groups : list ContainerId) : Script unit :=
  match groups with
  | [] => ret tt
  | group :: rest =>
      modify (setClasses group false false) ;;
      modify (removeErrorMessage group) ;;
      clearGroups rest
  end.

(** [resetForm]; focus and scrolling leave the page as it is. *)
Definition resetForm : Script unit :=
  modify form_reset ;;
  modify (setValue TargetWattage (Some 700%Z)) ;;
  modify (setValue OriginalMinutes (Some 0%Z)) ;;
  modify (setValue OriginalSeconds (Some 0%Z)) ;;
  modify (fun p =>
            {| value := value p;
               container := container p;
               resultTime := resultTime p;
               resultExplanation := resultExplanation p;
               resultHidden := true |}) ;;
  clearGroups formGroups.

(** The [keydown] listener for the Escape key: it clicks the reset button
    when the result section is not hidden. *)
Definition escapeKey : Script unit :=
  hidden <- read resultHidden ;;
  if negb hidden then resetForm else ret tt.

(** ** Quick select ([addQuickSelectButtons]) *)

Module QuickSelect.

Definition commonWattages : list Z :=
  [600; 700; 800; 900; 1000; 1100; 1200]%Z.

(** The text of a wattage button. *)
Definition wattageLabel (wattage : Z) : string :=
  JS.toString wattage ++ "W".

(** A click on a wattage button of the given input. *)
Definition clickWattage (input : InputId) (wattage : Z) : Page -> Page :=
  setValue input (Some wattage).

Record CommonTime : Type := mkCommonTime {
  label : string;
  minutes : Z;
  seconds : Z
}.

Definition commonTimes : list CommonTime :=
  [ {| label := "30s"; minutes := 0; seconds := 30 |};
    {| label := "1m"; minutes := 1; seconds := 0 |};
    {| label := "1m 30s"; minutes := 1; seconds := 30 |};
    {| label := "2m"; minutes := 2; seconds := 0 |};
    {| label := "2m 30s"; minutes := 2; seconds := 30 |};
    {| label := "3m"; minutes := 3; seconds := 0 |};
    {| label := "4m"; minutes := 4; seconds := 0 |};
    {| label := "5m"; minutes := 5; seconds := 0 |};
    {| label := "7m"; minutes := 7; seconds := 0 |};
    {| label := "8m"; minutes := 8; seconds := 0 |};
    {| label := "10m"; minutes := 10; seconds := 0 |} ]%Z.

(** A click on a time button. *)
Definition clickTime (time : CommonTime) (p : Page) : Page :=
  setValue OriginalSeconds (Some (seconds time))
    (setValue OriginalMinutes (Some (minutes time)) p).

End QuickSelect.

(** ** The object [Utils] *)

Module Utils.

Record Recommendation : Type := mkRecommendation {
  powerLevel : string;
  reason : string
}.

Definition formatCookingTime (totalSeconds : Z) : string :=
  let hours := JS.Math_floor (inject_Z totalSeconds / inject_Z 3600) in
  let minutes :=
    JS.Math_floor (inject_Z (JS.rem totalSeconds 3600) / inject_Z 60) in
  let seconds := JS.rem totalSeconds 60 in
  let formatted := "" in
  let formatted := if (0 <? hours)%Z
                   then formatted ++ JS.toString hours ++ "h "
                   else formatted in
  let formatted := if (0 <? minutes)%Z
                   then formatted ++ JS.toString minutes ++ "m "
                   else formatted in
  let formatted := if (0 <? seconds)%Z
                      || ((hours =? 0)%Z && (minutes =? 0)%Z)
                   then formatted ++ JS.toString seconds ++ "s"
                   else formatted in
  JS.trim formatted.

Definition isValidWattage (wattage : Z) : bool :=
  (100 <=? wattage)%Z && (wattage <=? 2000)%Z.

Definition getPowerLevelRecommendation (originalWattage targetWattage : Z)
  : Recommendation :=
  let ratio := (inject_Z originalWattage / inject_Z targetWattage)%Q in
  if negb (Qle_bool ratio (3 # 2))
  then {| powerLevel := "70-80%";
          reason := "Your microwave is much more powerful. Consider using a lower power level." |}
  else if negb (Qle_bool (7 # 10) ratio)
  then {| powerLevel := "100%";
          reason := "Your microwave is less powerful. Use full power and check frequently." |}
  else {| powerLevel := "100%";
          reason := "Your microwave power is similar to the recipe. Use normal power." |}.

End Utils.

Open Scope Z_scope.

(** ** The specification's vocabulary *)

(** A request that satisfies the invariants of the specification's
    [ConversionRequest]: wattages in [100,2000], minutes in [0,60], seconds in
    [0,59], and a duration that is not zero. *)
Definition validRequest (data : FormData) : Prop :=
  100 <= originalWattage data <= 2000 /\
  100 <= targetWattage data <= 2000 /\
  0 <= originalMinutes data <= 60 /\
  0 <= originalSeconds data <= 59 /\
  ~ (originalMinutes data = 0 /\ originalSeconds data = 0).

(** Rounding to the nearest integer with ties away from zero, as the
    specification words it. *)
Definition round_half_away_from_zero (x : Q) : Z :=
  if Qle_bool 0 x then Qfloor (x + (1 # 2)) else Qceiling (x - (1 # 2)).

(** Rounding to two decimal places, as the specification words it. *)
Definition round_2_decimals (x : Q) : Q :=
  (inject_Z (round_half_away_from_zero (x * inject_Z 100)) / inject_Z 100)%Q.

(** The specification's error kinds. *)
Inductive ErrorKind : Type :=
| MissingField
| OutOfRange
| InvalidTime.

Definition ErrorKind_eqb (a b : ErrorKind) : bool :=
  match a, b with
  | MissingField, MissingField
  | OutOfRange, OutOfRange
  | InvalidTime, InvalidTime => true
  | _, _ => false
  end.

(** The kind each message of [validateInput] and [validateForm] stands for:
    the required-field message is [MissingField], the two wattage messages
    are [OutOfRange], the three messages about minutes and seconds are
    [InvalidTime]. *)
Definition errorKind (message : string) : option ErrorKind :=
  if String.eqb message "This field is required" then Some MissingField
  else if String.eqb message "Wattage must be at least 100 watts"
       || String.eqb message "Wattage must be 2000 watts or less"
  then Some OutOfRange
  else if String.eqb message "Seconds must be between 0-59"
       || String.eqb message "Minutes should be reasonable (≤60)"
       || String.eqb message "Please specify at least some cooking time"
  then Some InvalidTime
  else None.

(** A validation fails with a kind when it returns [false] and has shown an
    error of that kind. *)
Definition failsWith (kind : ErrorKind) (o : Outcome bool) : bool :=
  negb (returned o)
  && existsb (fun e => match errorKind (snd e) with
                       | Some k => ErrorKind_eqb k kind
                       | None => false
                       end) (shown o).

(** The failure conditions of validation, as the specification states
    them. *)
Definition failures_as_specified (data : FormData) (o : Outcome bool) : Prop :=
  (failsWith OutOfRange o = true <->
     ~ 100 <= originalWattage data <= 2000 \/
     ~ 100 <= targetWattage data <= 2000) /\
  (failsWith InvalidTime o = true <->
     ~ 0 <= originalSeconds data <= 59 \/
     ~ 0 <= originalMinutes data <= 60 \/
     (originalMinutes data = 0 /\ originalSeconds data = 0)).

(** ** Notions used in the statements and proofs *)

(** The message with which [validateInput] rejects a content, if any: its
    tests in their order, without the changes to the page (the agreement is
    [validateInput_returned] and [validateInput_shown]). *)
Definition rejection (input : InputId) (text : option Z) : option string :=
  let parsed := JS.parseFloat text in
  if required input && (JS.isEmpty text || JS.le parsed 0)
  then Some "This field is required"
  else if JS.includes (id input) "Wattage" && JS.lt parsed 100
  then Some "Wattage must be at least 100 watts"
  else if JS.includes (id input) "Wattage" && JS.gt parsed 2000
  then Some "Wattage must be 2000 watts or less"
  else if String.eqb (id input) "originalSeconds" && JS.gt parsed 59
  then Some "Seconds must be between 0-59"
  else if String.eqb (id input) "originalMinutes" && JS.gt parsed 60
  then Some "Minutes should be reasonable (≤60)"
  else None.

(** Whether [validateInput] accepts the content of an input of a page, and
    the error it shows otherwise. *)
Definition accepts (p : Page) (input : InputId) : bool :=
  match rejection input (value p input) with
  | Some _ => false
  | None => true
  end.

Definition rejections (p : Page) (input : InputId)
  : list (ContainerId * string) :=
  match rejection input (value p input) with
  | Some message => [(closest_group input, message)]
  | None => []
  end.

(** The test at the end of [validateForm]: no minutes and no seconds. *)
Definition noCookingTime (p : Page) : bool :=
  (JS.orZero (JS.parseInt (value p OriginalMinutes)) =? 0)%Z
  && (JS.orZero (JS.parseInt (value p OriginalSeconds)) =? 0)%Z.

(** Two pages that differ at most in the classes and error messages of
    their containers. *)
Definition sameContents (p q : Page) : Prop :=
  (forall input, value q input = value p input) /\
  resultTime q = resultTime p /\
  resultExplanation q = resultExplanation p /\
  resultHidden q = resultHidden p.

(** A method that leaves the contents of every page as it finds them. *)
Definition preserves {A : Type} (m : Script A) : Prop :=
  forall p, sameContents p (page (m p)).

(** The error message a container displays: the text of the first
    [.error-message] below it, if there is one. *)
Definition displayedError (g : ContainerId) (p : Page) : option string :=
  match querySelector_error_message g p with
  | Some holder => errorMessage (container p holder)
  | None => None
  end.

(** [below g h]: the container [h] is [g] or lies inside [g]; only the
    time row lies inside another container, the cooking-time group. *)
Definition below (g h : ContainerId) : bool :=
  ContainerId_eqb h g
  || (ContainerId_eqb g CookingTimeGroup && ContainerId_eqb h TimeRow).

(** The page after the four [validateInput] calls of [validateForm]. *)
Definition validatedInputs (p : Page) : Page :=
  page (validateInput TargetWattage
          (page (validateInput OriginalSeconds
                   (page (validateInput OriginalMinutes
                            (page (validateInput OriginalWattage p))))))).

(** A method that never takes the class [error] off the time row. *)
Definition keepsTimeRowError {A : Type} (m : Script A) : Prop :=
  forall p,
    classError (container p TimeRow) = true ->
    classError (container (page (m p)) TimeRow) = true.

(** The page after an input event on each of the four inputs. *)
Definition formatted (p : Page) : Page :=
  formattingHandler TargetWattage
    (formattingHandler OriginalSeconds
       (formattingHandler OriginalMinutes
          (formattingHandler OriginalWattage p))).

(** The ten digits, and the texts made of digits only. *)
Definition isDigit (c : ascii) : bool :=
  let n := nat_of_ascii c in (48 <=? n)%nat && (n <=? 57)%nat.

Fixpoint allDigits (s : string) : bool :=
  match s with
  | EmptyString => true
  | String c rest => isDigit c && allDigits rest
  end.

(** ** Arithmetic of the host functions *)

Section HostArithmetic.

Lemma Math_round_nonneg (x : Q) :
  (0 <= x)%Q -> JS.Math_round x = round_half_away_from_zero x.
Proof.
  intros Hx. unfold round_half_away_from_zero.
  apply Qle_bool_iff in Hx. now rewrite Hx.
Qed.

(** On a quotient of integers [Math.round] is an integer division. *)
Lemma Math_round_quotient (a b : Z) :
  0 < b -> JS.Math_round (inject_Z a / inject_Z b) = (2 * a + b) / (2 * b).
Proof.
  intros Hb. unfold JS.Math_round.
  rewrite (Zdiv_Qdiv (2 * a + b) (2 * b)).
  apply Qfloor_comp.
  rewrite !inject_Z_plus, !inject_Z_mult.
  assert (Hq : ~ (inject_Z b == 0)%Q).
  { change 0%Q with (inject_Z 0). rewrite inject_Z_injective. lia. }
  change (inject_Z 2) with (2 # 1)%Q.
  field. exact Hq.
Qed.

Lemma Math_round_monotone (x y : Q) :
  (x <= y)%Q -> JS.Math_round x <= JS.Math_round y.
Proof.
  intros Hxy. unfold JS.Math_round. apply Qfloor_resp_le.
  now apply Qplus_le_l.
Qed.

Lemma Math_floor_quotient (a b : Z) :
  JS.Math_floor (inject_Z a / inject_Z b) = a / b.
Proof. unfold JS.Math_floor. symmetry. apply Zdiv_Qdiv. Qed.

Lemma quotient_nonneg (a b : Z) :
  0 <= a -> 0 < b -> (0 <= inject_Z a / inject_Z b)%Q.
Proof.
  intros Ha Hb. apply Qle_shift_div_l.
  - change 0%Q with (inject_Z 0). rewrite <- Zlt_Qlt. exact Hb.
  - rewrite Qmult_0_l. change 0%Q with (inject_Z 0).
    rewrite <- Zle_Qle. exact Ha.
Qed.

Lemma quotient_le (a b c d : Z) :
  0 < b -> 0 < d -> a * d <= c * b ->
  (inject_Z a / inject_Z b <= inject_Z c / inject_Z d)%Q.
Proof.
  intros Hb Hd H.
  destruct b as [| pb | pb]; try lia. destruct d as [| pd | pd]; try lia.
  unfold Qle, Qdiv, Qmult, Qinv, inject_Z. cbn [Qnum Qden].
  rewrite !Pos.mul_1_l, !Z.mul_1_r. exact H.
Qed.

Lemma quotient_lt (a b c d : Z) :
  0 < b -> 0 < d -> a * d < c * b ->
  (inject_Z a / inject_Z b < inject_Z c / inject_Z d)%Q.
Proof.
  intros Hb Hd H.
  destruct b as [| pb | pb]; try lia. destruct d as [| pd | pd]; try lia.
  unfold Qlt, Qdiv, Qmult, Qinv, inject_Z. cbn [Qnum Qden].
  rewrite !Pos.mul_1_l, !Z.mul_1_r. exact H.
Qed.

Lemma Qfloor_unique (q : Q) (n : Z) :
  (inject_Z n <= q)%Q -> (q < inject_Z (n + 1))%Q -> Qfloor q = n.
Proof.
  intros Hlo Hhi.
  apply Qfloor_resp_le in Hlo. rewrite Qfloor_Z in Hlo.
  pose proof (Qfloor_le q) as Hf.
  assert (H : (inject_Z (Qfloor q) < inject_Z (n + 1))%Q)
    by (eapply Qle_lt_trans; eassumption).
  rewrite <- Zlt_Qlt in H. lia.
Qed.

End HostArithmetic.

(** [Math.round] sends a tie upwards, which differs from rounding away
    from zero on a negative tie only. *)
Example Math_round_negative_tie :
  JS.Math_round (-5 # 2) = -2 /\ round_half_away_from_zero (-5 # 2) = -3 /\
  JS.Math_round (5 # 2) = 3 /\ round_half_away_from_zero (5 # 2) = 3.
Proof. repeat split. Qed.

(** ** The formula on valid requests *)

(** Exposes the fields of a [calculateConversion] without touching the
    arithmetic inside them. *)
Ltac conversion_fields :=
  cbn [calculateConversion originalTotalSeconds newTotalSeconds newMinutes
       newSeconds ratio originalWattage originalMinutes originalSeconds
       targetWattage] in *.

Lemma newTotalSeconds_quotient (data : FormData) :
  0 < targetWattage data ->
  newTotalSeconds (calculateConversion data) =
  (2 * (originalTotalSeconds (calculateConversion data) * originalWattage data)
   + targetWattage data) / (2 * targetWattage data).
Proof. intros Ht. conversion_fields. now apply Math_round_quotient. Qed.

Lemma newTotalSeconds_nonneg (data : FormData) :
  0 <= originalMinutes data -> 0 <= originalSeconds data ->
  0 <= originalWattage data -> 0 < targetWattage data ->
  0 <= newTotalSeconds (calculateConversion data).
Proof.
  intros Hm Hs Ho Ht. rewrite newTotalSeconds_quotient by exact Ht.
  conversion_fields. apply Z.div_pos; nia.
Qed.

(** C1. For a valid request, [calculateConversion] computes
    [originalTotalSeconds = originalMinutes * 60 + originalSeconds], then
    [newTotalSeconds] as that duration times the original wattage over the
    target wattage, rounded to the nearest integer with ties away from zero,
    then [newMinutes = floor (newTotalSeconds / 60)] and
    [newSeconds = newTotalSeconds mod 60]. *)
Theorem calculateConversion_formula (data : FormData) :
  validRequest data ->
  let result := calculateConversion data in
  originalTotalSeconds result =
    originalMinutes data * 60 + originalSeconds data /\
  newTotalSeconds result =
    round_half_away_from_zero
      (inject_Z (originalTotalSeconds result) * inject_Z (originalWattage data)
       / inject_Z (targetWattage data)) /\
  newMinutes result = newTotalSeconds result / 60 /\
  newSeconds result = newTotalSeconds result mod 60.
Proof.
  intros (Ho & Ht & Hm & Hs & _) result.
  assert (Hn : 0 <= newTotalSeconds result)
    by (apply newTotalSeconds_nonneg; lia).
  repeat split.
  - rewrite <- inject_Z_mult. subst result. conversion_fields.
    apply Math_round_nonneg, quotient_nonneg; nia.
  - subst result. conversion_fields. apply Math_floor_quotient.
  - subst result. conversion_fields. unfold JS.rem.
    apply Z.rem_mod_nonneg; [exact Hn | lia].
Qed.

Lemma calculateConversion_formula_witness :
  let data := mkFormData 1000 2 0 700 in
  validRequest data /\
  newTotalSeconds (calculateConversion data) = 171 /\
  newMinutes (calculateConversion data) = 171 / 60 /\
  newSeconds (calculateConversion data) = 171 mod 60.
Proof.
  assert (Hv : validRequest (mkFormData 1000 2 0 700))
    by (unfold validRequest; simpl; lia).
  split; [exact Hv |].
  destruct (calculateConversion_formula _ Hv) as (_ & _ & Hmin & Hsec).
  split; [reflexivity |]. split; [exact Hmin | exact Hsec].
Defined.

(** ** Validation *)

Ltac run_script :=
  cbv [bind ret read modify record_error showError showSuccess clearErrors
       returned page shown app].

Lemma validateInput_returned (input : InputId) (p : Page) :
  returned (validateInput input p) =
  match rejection input (value p input) with
  | Some _ => false
  | None => true
  end.
Proof.
  unfold validateInput, rejection. run_script.
  repeat (match goal with
          | |- context [if ?c then _ else _] => destruct c
          end; try reflexivity).
Qed.

Lemma validateInput_shown (input : InputId) (p : Page) :
  shown (validateInput input p) =
  match rejection input (value p input) with
  | Some message => [(closest_group input, message)]
  | None => []
  end.
Proof.
  unfold validateInput, rejection. run_script.
  repeat (match goal with
          | |- context [if ?c then _ else _] => destruct c
          end; try reflexivity).
Qed.

Lemma sameContents_refl (p : Page) : sameContents p p.
Proof. repeat split. Qed.

Lemma sameContents_trans (p q r : Page) :
  sameContents p q -> sameContents q r -> sameContents p r.
Proof.
  intros (Hv & Ht & He & Hh) (Hv' & Ht' & He' & Hh').
  repeat split; try congruence.
Qed.

Lemma preserves_ret {A : Type} (a : A) : preserves (ret a).
Proof. intros p. apply sameContents_refl. Qed.

Lemma preserves_read {A : Type} (f : Page -> A) : preserves (read f).
Proof. intros p. apply sameContents_refl. Qed.

Lemma preserves_record_error (g : ContainerId) (message : string) :
  preserves (record_error g message).
Proof. intros p. apply sameContents_refl. Qed.

Lemma preserves_bind {A B : Type} (m : Script A) (f : A -> Script B) :
  preserves m -> (forall a, preserves (f a)) -> preserves (bind m f).
Proof.
  intros Hm Hf p. unfold bind. cbn [page].
  eapply sameContents_trans; [apply Hm | apply Hf].
Qed.

Lemma preserves_if {A : Type} (c : bool) (m1 m2 : Script A) :
  preserves m1 -> preserves m2 -> preserves (if c then m1 else m2).
Proof. now destruct c. Qed.

Lemma preserves_setContainer (g : ContainerId) (c : Page -> Container) :
  preserves (modify (fun p => setContainer g (c p) p)).
Proof. intros p. repeat split. Qed.

Lemma preserves_setClasses (g : ContainerId) (error success : bool) :
  preserves (modify (setClasses g error success)).
Proof. intros p. repeat split. Qed.

Lemma preserves_removeErrorMessage (g : ContainerId) :
  preserves (modify (removeErrorMessage g)).
Proof.
  intros p. unfold modify, removeErrorMessage. cbn [page].
  destruct (querySelector_error_message g p); repeat split.
Qed.

Create HintDb frame.
#[local] Hint Resolve preserves_ret preserves_read preserves_record_error
  preserves_bind preserves_if preserves_setContainer preserves_setClasses
  preserves_removeErrorMessage : frame.

Lemma preserves_showError (g : ContainerId) (message : string) :
  preserves (showError g message).
Proof.
  unfold showError. apply preserves_bind; [auto with frame | intros _].
  apply preserves_bind; [auto with frame | intros found].
  apply preserves_bind; [| auto with frame].
  apply preserves_setContainer with
    (c := fun p => {| classError := classError (container p _);
                      classSuccess := classSuccess (container p _);
                      errorMessage := Some message |}).
Qed.

Lemma preserves_showSuccess (g : ContainerId) : preserves (showSuccess g).
Proof. unfold showSuccess. auto with frame. Qed.

Lemma preserves_clearErrors (input : InputId) : preserves (clearErrors input).
Proof. unfold clearErrors. auto with frame. Qed.

#[local] Hint Resolve preserves_showError preserves_showSuccess
  preserves_clearErrors : frame.

Lemma preserves_validateInput (input : InputId) :
  preserves (validateInput input).
Proof.
  unfold validateInput.
  apply preserves_bind; [auto with frame | intros text].
  apply preserves_bind; [auto with frame | intros _].
  repeat (apply preserves_if; [auto with frame |]).
  auto with frame.
Qed.

Lemma validateInput_contents (input : InputId) (p : Page) :
  sameContents p (page (validateInput input p)).
Proof. apply preserves_validateInput. Qed.

Lemma returned_bind {A B : Type} (m : Script A) (f : A -> Script B) p :
  returned (bind m f p) = returned (f (returned (m p)) (page (m p))).
Proof. reflexivity. Qed.

Lemma page_bind {A B : Type} (m : Script A) (f : A -> Script B) p :
  page (bind m f p) = page (f (returned (m p)) (page (m p))).
Proof. reflexivity. Qed.

Lemma shown_bind {A B : Type} (m : Script A) (f : A -> Script B) p :
  shown (bind m f p) =
  (shown (m p) ++ shown (f (returned (m p)) (page (m p))))%list.
Proof. reflexivity. Qed.

Lemma forallb_pointwise {A : Type} (f g : A -> bool) (l : list A) :
  (forall a, f a = g a) -> forallb f l = forallb g l.
Proof.
  intros Hfg. induction l as [| a l IH]; cbn; [reflexivity |].
  now rewrite Hfg, IH.
Qed.

Lemma validateInputs_outcome (remaining : list InputId) :
  forall (isValid : bool) (p : Page),
    returned (validateInputs remaining isValid p) =
      isValid && forallb (accepts p) remaining /\
    shown (validateInputs remaining isValid p) =
      flat_map (rejections p) remaining /\
    sameContents p (page (validateInputs remaining isValid p)).
Proof.
  induction remaining as [| input rest IH]; intros isValid p.
  - cbn. rewrite andb_true_r. repeat split.
  - cbn [validateInputs]. rewrite returned_bind, shown_bind, page_bind.
    destruct (IH (if negb (returned (validateInput input p))
                  then false else isValid)
                 (page (validateInput input p))) as (Hr & Hs & Hc).
    pose proof (validateInput_contents input p) as Hi.
    assert (Hacc : forall i, accepts (page (validateInput input p)) i
                             = accepts p i).
    { intros i. unfold accepts. now rewrite (proj1 Hi). }
    assert (Hrej : forall i, rejections (page (validateInput input p)) i
                             = rejections p i).
    { intros i. unfold rejections. now rewrite (proj1 Hi). }
    split; [| split].
    + rewrite Hr, validateInput_returned.
      rewrite (forallb_pointwise _ _ rest Hacc).
      cbn [forallb]. unfold accepts at 2.
      destruct (rejection input (value p input)), isValid; reflexivity.
    + rewrite Hs, validateInput_shown.
      rewrite (flat_map_ext _ _ Hrej). reflexivity.
    + eapply sameContents_trans; eassumption.
Qed.

Lemma validateForm_returned (p : Page) :
  returned (validateForm p) =
  forallb (accepts p) inputs && negb (noCookingTime p).
Proof.
  unfold validateForm. rewrite returned_bind.
  destruct (validateInputs_outcome inputs true p) as (Hr & _ & Hv & _).
  rewrite Hr. cbn [andb]. unfold read at 1 2.
  rewrite !returned_bind. cbn [returned page].
  rewrite !Hv. fold (noCookingTime p).
  destruct (noCookingTime p).
  - now rewrite andb_false_r.
  - now rewrite andb_true_r.
Qed.

Lemma validateForm_shown (p : Page) :
  shown (validateForm p) =
  (flat_map (rejections p) inputs
   ++ if noCookingTime p
      then [(TimeRow, "Please specify at least some cooking time")]
      else [])%list.
Proof.
  unfold validateForm. rewrite shown_bind.
  destruct (validateInputs_outcome inputs true p) as (_ & Hs & Hv & _).
  rewrite Hs. f_equal. unfold read at 1 2.
  rewrite !shown_bind. cbn [returned page shown app].
  rewrite !Hv. fold (noCookingTime p).
  now destruct (noCookingTime p).
Qed.

Lemma preserves_validateInputs (remaining : list InputId) (isValid : bool) :
  preserves (validateInputs remaining isValid).
Proof. intros p. apply validateInputs_outcome. Qed.

Lemma preserves_validateForm : preserves validateForm.
Proof.
  unfold validateForm.
  apply preserves_bind; [apply preserves_validateInputs | intros isValid].
  apply preserves_bind; [auto with frame | intros minutes].
  apply preserves_bind; [auto with frame | intros seconds].
  auto with frame.
Qed.

(** [validateInput] on integer contents, input by input. *)
Lemma rejection_wattage (input : InputId) (watts : Z) :
  input = OriginalWattage \/ input = TargetWattage ->
  rejection input (Some watts) =
  if (watts <=? 0)%Z then Some "This field is required"
  else if (watts <? 100)%Z then Some "Wattage must be at least 100 watts"
  else if (2000 <? watts)%Z then Some "Wattage must be 2000 watts or less"
  else None.
Proof. intros [-> | ->]; reflexivity. Qed.

Lemma rejection_minutes (minutes : Z) :
  rejection OriginalMinutes (Some minutes) =
  if (60 <? minutes)%Z then Some "Minutes should be reasonable (≤60)" else None.
Proof. reflexivity. Qed.

Lemma rejection_seconds (seconds : Z) :
  rejection OriginalSeconds (Some seconds) =
  if (59 <? seconds)%Z then Some "Seconds must be between 0-59" else None.
Proof. reflexivity. Qed.

Ltac split_comparisons :=
  repeat match goal with
         | |- context [(?a <=? ?b)] => destruct (Z.leb_spec a b)
         | |- context [(?a <? ?b)] => destruct (Z.ltb_spec a b)
         | |- context [(?a =? ?b)] => destruct (Z.eqb_spec a b)
         end.

Lemma validateForm_request (data : FormData) (p : Page) :
  let o := validateForm (enter data p) in
  (failsWith OutOfRange o = true <->
     0 < originalWattage data < 100 \/ 2000 < originalWattage data \/
     0 < targetWattage data < 100 \/ 2000 < targetWattage data) /\
  (failsWith InvalidTime o = true <->
     59 < originalSeconds data \/ 60 < originalMinutes data \/
     (originalMinutes data = 0 /\ originalSeconds data = 0)) /\
  (failsWith MissingField o = true <->
     originalWattage data <= 0 \/ targetWattage data <= 0) /\
  (returned o = true <->
     100 <= originalWattage data <= 2000 /\
     100 <= targetWattage data <= 2000 /\
     originalMinutes data <= 60 /\
     originalSeconds data <= 59 /\
     ~ (originalMinutes data = 0 /\ originalSeconds data = 0)).
Proof.
  intros o. subst o. unfold failsWith.
  rewrite validateForm_returned, validateForm_shown.
  unfold inputs, noCookingTime, accepts, rejections.
  cbn [forallb flat_map enter value JS.parseInt JS.orZero].
  rewrite (rejection_wattage OriginalWattage) by auto.
  rewrite (rejection_wattage TargetWattage) by auto.
  rewrite rejection_minutes, rejection_seconds.
  destruct data as [ow m s tw].
  cbn [originalWattage originalMinutes originalSeconds targetWattage].
  split_comparisons;
    repeat match goal with
           | |- context [existsb ?f ?l] =>
               let v := eval vm_compute in (existsb f l) in
               change (existsb f l) with v
           end;
    cbn [negb andb orb];
    (split; [| split; [| split]]); (split; [intros Hfail; try discriminate Hfail |]); intros; try lia.
Qed.

(** ** Strings *)

Section Strings.

Lemma append_assoc (a b c : string) : (a ++ b) ++ c = a ++ (b ++ c).
Proof. induction a as [| x a IH]; cbn; [reflexivity | now rewrite IH]. Qed.

Lemma prefix_append (a b : string) : prefix a (a ++ b) = true.
Proof.
  induction a as [| x a IH]; cbn.
  - now destruct b.
  - destruct (ascii_dec x x) as [_ | Hx]; [exact IH | now elim Hx].
Qed.

Lemma includes_unfold (s part : string) :
  JS.includes s part =
  prefix part s ||
  match s with
  | EmptyString => false
  | String _ rest => JS.includes rest part
  end.
Proof. destruct s; reflexivity. Qed.

(** A string includes each piece it was appended from. *)
Lemma includes_append (before part after : string) :
  JS.includes (before ++ part ++ after) part = true.
Proof.
  induction before as [| x before IH].
  - cbn [append]. rewrite includes_unfold, prefix_append. reflexivity.
  - cbn [append]. rewrite includes_unfold. cbn iota.
    rewrite IH. apply orb_true_r.
Qed.

Lemma includes_append_end (before part : string) :
  JS.includes (before ++ part) part = true.
Proof.
  replace part with (part ++ "") at 1.
  - apply includes_append.
  - clear. induction part as [| x part IH]; cbn; [| rewrite IH]; reflexivity.
Qed.

(** The decimal text of an integer starts with a digit or a minus sign. *)
Lemma toString_head (n : Z) :
  exists c rest,
    JS.toString n = String c rest /\ JS.isWhiteSpace c = false.
Proof.
  unfold JS.toString.
  destruct (Z.to_int n) as [d | d]; cbn [NilZero.string_of_int].
  - destruct d; cbn; eexists; eexists; (split; [reflexivity |]);
      reflexivity.
  - eexists; eexists; (split; [reflexivity |]); reflexivity.
Qed.

Lemma trimStart_head (c : ascii) (rest : string) :
  JS.isWhiteSpace c = false ->
  JS.trimStart (String c rest) = String c rest.
Proof. intros Hc. cbn. now rewrite Hc. Qed.

Lemma trimEnd_last (s : string) (c : ascii) :
  JS.isWhiteSpace c = false ->
  JS.trimEnd (s ++ String c "") = s ++ String c "".
Proof.
  intros Hc. induction s as [| x s IH].
  - cbn. now rewrite Hc.
  - cbn [append JS.trimEnd]. rewrite IH.
    destruct (s ++ String c "") eqn:Hs; [| reflexivity].
    destruct s; discriminate.
Qed.

Lemma trimEnd_last_space (s : string) (c : ascii) :
  JS.isWhiteSpace c = false ->
  JS.trimEnd (s ++ String c " ") = s ++ String c "".
Proof.
  intros Hc. induction s as [| x s IH].
  - cbn. now rewrite Hc.
  - cbn [append JS.trimEnd]. rewrite IH.
    destruct (s ++ String c "") eqn:Hs; [| reflexivity].
    destruct s; discriminate.
Qed.

(** [trim] keeps a text that starts with a number and ends with a unit
    letter, and removes the blank left after a unit letter. *)
Lemma trim_number_unit (n : Z) (middle : string) (unit : ascii) :
  JS.isWhiteSpace unit = false ->
  JS.trim (JS.toString n ++ middle ++ String unit "") =
  JS.toString n ++ middle ++ String unit "".
Proof.
  intros Hu. unfold JS.trim.
  destruct (toString_head n) as (c & rest & Hn & Hc).
  rewrite Hn. cbn [append]. rewrite trimStart_head by exact Hc.
  change (String c (rest ++ middle ++ String unit ""))
    with (String c rest ++ middle ++ String unit "").
  rewrite <- append_assoc. now apply trimEnd_last.
Qed.

Lemma trim_number_unit_space (n : Z) (unit : ascii) :
  JS.isWhiteSpace unit = false ->
  JS.trim (JS.toString n ++ String unit " ") =
  JS.toString n ++ String unit "".
Proof.
  intros Hu. unfold JS.trim.
  destruct (toString_head n) as (c & rest & Hn & Hc).
  rewrite Hn. cbn [append]. rewrite trimStart_head by exact Hc.
  change (String c (rest ++ String unit " "))
    with (String c rest ++ String unit " ").
  now apply trimEnd_last_space.
Qed.

End Strings.

(** ** Rendering of durations *)

Lemma formatTime_minutes_seconds (minutes seconds : Z) :
  0 < minutes -> 0 < seconds ->
  formatTime minutes seconds =
  JS.toString minutes ++ "m " ++ JS.toString seconds ++ "s".
Proof.
  intros Hm Hs. unfold formatTime.
  apply Z.ltb_lt in Hm, Hs. rewrite Hm, Hs. cbn [orb append].
  rewrite append_assoc.
  apply (trim_number_unit minutes ("m " ++ JS.toString seconds) "s").
  reflexivity.
Qed.

Lemma formatTime_whole_minutes (minutes : Z) :
  0 < minutes -> formatTime minutes 0 = JS.toString minutes ++ "m".
Proof.
  intros Hm. unfold formatTime.
  assert (Hz : (minutes =? 0) = false) by (apply Z.eqb_neq; lia).
  apply Z.ltb_lt in Hm. rewrite Hm, Hz. cbn [Z.ltb Z.compare orb append].
  apply (trim_number_unit_space minutes "m"). reflexivity.
Qed.

Lemma formatTime_seconds_only (seconds : Z) :
  formatTime 0 seconds = JS.toString seconds ++ "s".
Proof.
  unfold formatTime.
  cbn [Z.ltb Z.eqb Z.compare append]. rewrite orb_true_r.
  cbn [append].
  replace (JS.toString seconds ++ "s")
    with (JS.toString seconds ++ "" ++ "s") by reflexivity.
  apply (trim_number_unit seconds "" "s"). reflexivity.
Qed.

Lemma timeString_minutes (result : Conversion) :
  0 < newMinutes result ->
  timeString result =
  JS.toString (newMinutes result) ++ "m "
  ++ JS.toString (newSeconds result) ++ "s".
Proof.
  intros Hm. unfold timeString. apply Z.ltb_lt in Hm. rewrite Hm.
  cbn [append]. now rewrite append_assoc.
Qed.

Lemma timeString_seconds_only (result : Conversion) :
  newMinutes result <= 0 ->
  timeString result = JS.toString (newSeconds result) ++ "s".
Proof.
  intros Hm. unfold timeString.
  assert (H : (0 <? newMinutes result) = false) by (apply Z.ltb_ge; lia).
  now rewrite H.
Qed.

Lemma newMinutes_nonneg (data : FormData) :
  validRequest data -> 0 <= newMinutes (calculateConversion data).
Proof.
  intros (Ho & Ht & Hm & Hs & _).
  assert (Hn : 0 <= newTotalSeconds (calculateConversion data))
    by (apply newTotalSeconds_nonneg; lia).
  conversion_fields. rewrite Math_floor_quotient.
  apply Z.div_pos; [exact Hn | lia].
Qed.

(** C6, as the script does it.  For a valid request the converted time is
    rendered as "<minutes>m <seconds>s" when its minutes are positive and as
    "<seconds>s" when they are zero; the original time is rendered by
    [formatTime], which gives "<minutes>m <seconds>s" when both parts are
    positive, "<minutes>m" alone when the seconds are zero, and
    "<seconds>s" when the minutes are zero. *)
Theorem duration_rendering (data : FormData) :
  validRequest data ->
  let result := calculateConversion data in
  let minutes := originalMinutes data in
  let seconds := originalSeconds data in
  0 <= newMinutes result /\
  (0 < newMinutes result ->
   timeString result =
   JS.toString (newMinutes result) ++ "m "
   ++ JS.toString (newSeconds result) ++ "s") /\
  (newMinutes result = 0 ->
   timeString result = JS.toString (newSeconds result) ++ "s") /\
  (0 < minutes -> 0 < seconds ->
   originalTimeStr data =
   JS.toString minutes ++ "m " ++ JS.toString seconds ++ "s") /\
  (0 < minutes -> seconds = 0 ->
   originalTimeStr data = JS.toString minutes ++ "m") /\
  (minutes = 0 -> originalTimeStr data = JS.toString seconds ++ "s").
Proof.
  intros Hv result minutes seconds. subst minutes seconds.
  unfold originalTimeStr.
  split; [now apply newMinutes_nonneg |].
  split; [apply timeString_minutes |].
  split; [intros H; apply timeString_seconds_only; lia |].
  split; [apply formatTime_minutes_seconds |].
  split.
  - intros Hm ->. now apply formatTime_whole_minutes.
  - intros ->. apply formatTime_seconds_only.
Qed.

Lemma duration_rendering_witness :
  let data := mkFormData 1000 1 0 1000 in
  validRequest data /\
  timeString (calculateConversion data) = "1m 0s" /\
  originalTimeStr data = "1m".
Proof.
  assert (Hv : validRequest (mkFormData 1000 1 0 1000))
    by (unfold validRequest; simpl; lia).
  split; [exact Hv |].
  destruct (duration_rendering _ Hv) as (_ & Hc & _ & _ & Ho & _).
  split.
  - exact (Hc ltac:(vm_compute; reflexivity)).
  - exact (Ho ltac:(simpl; lia) eq_refl).
Defined.

(** C6, as the specification states it, fails for the original time of one
    minute: its minutes are positive, yet it is not rendered with its
    seconds. *)
Lemma original_time_rendering_counterexample :
  let data := mkFormData 1000 1 0 1000 in
  validRequest data /\
  originalTotalSeconds (calculateConversion data) = 60 /\
  0 < originalMinutes data /\
  originalTimeStr data <>
  JS.toString (originalMinutes data) ++ "m "
  ++ JS.toString (originalSeconds data) ++ "s".
Proof.
  split; [unfold validRequest; simpl; lia |].
  split; [reflexivity |]. split; [reflexivity |].
  vm_compute. discriminate.
Qed.

Example timeString_30 :
  timeString (calculateConversion (mkFormData 1000 0 30 1000)) = "30s".
Proof. reflexivity. Qed.

Example timeString_60 :
  timeString (calculateConversion (mkFormData 1000 1 0 1000)) = "1m 0s".
Proof. reflexivity. Qed.

(** ** Submitting the form *)

Lemma validateForm_getFormData (p : Page) :
  returned (validateForm p) = true ->
  exists data, getFormData (page (validateForm p)) = Some data.
Proof.
  rewrite validateForm_returned. unfold inputs. cbn [forallb].
  intros H.
  destruct (preserves_validateForm p) as (Hv & _).
  unfold getFormData, JS.parseInt. rewrite !Hv.
  unfold accepts, rejection in H.
  destruct (value p OriginalWattage);
    [| cbn in H; discriminate].
  destruct (value p TargetWattage); [eexists; reflexivity |].
  apply andb_prop in H. destruct H as [H _].
  rewrite !andb_true_iff in H. destruct H as (_ & _ & _ & H & _).
  cbn in H. discriminate.
Qed.

Lemma getFormData_enter (data : FormData) (p q : Page) :
  sameContents (enter data p) q -> getFormData q = Some data.
Proof.
  intros (Hv & _). unfold getFormData, JS.parseInt. rewrite !Hv.
  now destruct data.
Qed.

(** What [handleSubmit] shows for a request that [validateForm] accepts. *)
Lemma handleSubmit_accepted (data : FormData) (p : Page) :
  returned (validateForm (enter data p)) = true ->
  let shownPage := page (handleSubmit (enter data p)) in
  resultTime shownPage = timeString (calculateConversion data) /\
  resultExplanation shownPage =
    explanation (calculateConversion data) data /\
  resultHidden shownPage = false.
Proof.
  intros Hok shownPage.
  assert (Hp : shownPage =
               page (displayResult (calculateConversion data) data
                       (page (validateForm (enter data p))))).
  { subst shownPage. unfold handleSubmit. rewrite page_bind, Hok.
    cbn [negb]. rewrite page_bind. unfold read. cbn [returned page].
    now rewrite (getFormData_enter data p)
      by apply preserves_validateForm. }
  rewrite Hp. repeat split.
Qed.

Lemma handleSubmit_rejected (p : Page) :
  returned (validateForm p) = false ->
  sameContents p (page (handleSubmit p)).
Proof.
  intros Hno. unfold handleSubmit. rewrite page_bind, Hno. cbn [negb].
  apply preserves_validateForm.
Qed.

Lemma validRequest_accepted (data : FormData) (p : Page) :
  validRequest data -> returned (validateForm (enter data p)) = true.
Proof.
  intros (Ho & Ht & Hm & Hs & Hz).
  apply (validateForm_request data p). lia.
Qed.

(** Once the input handlers have kept the times from being negative, the
    requests [validateForm] accepts are the valid ones. *)
Lemma validateForm_accepts_valid (data : FormData) (p : Page) :
  0 <= originalMinutes data -> 0 <= originalSeconds data ->
  (returned (validateForm (enter data p)) = true <-> validRequest data).
Proof.
  intros Hm Hs. destruct (validateForm_request data p) as (_ & _ & _ & Hr).
  rewrite Hr. unfold validRequest. lia.
Qed.

(** ** The explanation *)

(** C8, as the script does it.  The explanation is the sentence
    "Cook for <converted time> instead of <original time>": it contains
    both rendered durations, and for a valid request it is the text that
    [handleSubmit] puts under the result. *)
Theorem explanation_template (data : FormData) (p : Page) :
  validRequest data ->
  let result := calculateConversion data in
  explanation result data =
    "Cook for " ++ timeString result
    ++ " instead of " ++ originalTimeStr data /\
  JS.includes (explanation result data) (timeString result) = true /\
  JS.includes (explanation result data) (originalTimeStr data) = true /\
  resultExplanation (page (handleSubmit (enter data p))) =
    explanation result data.
Proof.
  intros Hv result. split; [reflexivity |]. split; [| split].
  - unfold explanation. apply includes_append.
  - unfold explanation. rewrite <- !append_assoc.
    apply includes_append_end.
  - apply handleSubmit_accepted. now apply validRequest_accepted.
Qed.

Lemma explanation_template_witness :
  let data := mkFormData 1000 2 0 700 in
  validRequest data /\
  resultExplanation (page (handleSubmit (pageOf data))) =
    "Cook for 2m 51s instead of 2m".
Proof.
  assert (Hv : validRequest (mkFormData 1000 2 0 700))
    by (unfold validRequest; simpl; lia).
  split; [exact Hv |].
  destruct (explanation_template _ (loaded (fun _ => None)) Hv)
    as (_ & _ & _ & He).
  exact He.
Defined.

(** C8, as the specification states it, fails: the explanation for two
    minutes at 1000 W on a 700 W microwave names neither wattage. *)
Lemma explanation_wattages_counterexample :
  let data := mkFormData 1000 2 0 700 in
  let text := explanation (calculateConversion data) data in
  validRequest data /\
  text = "Cook for 2m 51s instead of 2m" /\
  JS.includes text (JS.toString (originalWattage data)) = false /\
  JS.includes text (JS.toString (targetWattage data)) = false.
Proof.
  split; [unfold validRequest; simpl; lia |].
  repeat split.
Qed.

(** C10. The request 100 W, 0 min 1 s, for a 2000 W microwave passes
    [validateForm], and its converted time is zero: total 0, minutes 0,
    seconds 0, rendered "0s", although the original time is positive. *)
Theorem converted_time_can_be_zero :
  let data := mkFormData 100 0 1 2000 in
  let result := calculateConversion data in
  validRequest data /\
  returned (validateForm (pageOf data)) = true /\
  getFormData (page (validateForm (pageOf data))) = Some data /\
  0 < originalTotalSeconds result /\
  newTotalSeconds result = 0 /\
  newMinutes result = 0 /\
  newSeconds result = 0 /\
  timeString result = "0s" /\
  resultTime (page (handleSubmit (pageOf data))) = "0s".
Proof.
  cbv zeta. split; [unfold validRequest; simpl; lia |].
  repeat split.
Qed.

(** ** The claims about validation *)

(** C2, as the script does it.  [validateForm] fails with [OutOfRange]
    exactly when a wattage lies in [1,99] or above 2000, and with
    [InvalidTime] exactly when the seconds exceed 59, or the minutes exceed
    60, or both are zero.  A wattage of zero or less is reported as a missing
    required field, and negative minutes or seconds are not rejected. *)
Theorem validateForm_failures (data : FormData) (p : Page) :
  let o := validateForm (enter data p) in
  (failsWith OutOfRange o = true <->
     0 < originalWattage data < 100 \/ 2000 < originalWattage data \/
     0 < targetWattage data < 100 \/ 2000 < targetWattage data) /\
  (failsWith InvalidTime o = true <->
     59 < originalSeconds data \/ 60 < originalMinutes data \/
     (originalMinutes data = 0 /\ originalSeconds data = 0)).
Proof.
  intros o. destruct (validateForm_request data p) as (Hr & Ht & _).
  split; assumption.
Qed.

(** On the contents the input handlers let through (positive wattages,
    minutes and seconds that are not negative) the failure conditions are
    those of the specification. *)
Lemma validateForm_failures_in_domain (data : FormData) (p : Page) :
  0 < originalWattage data -> 0 < targetWattage data ->
  0 <= originalMinutes data -> 0 <= originalSeconds data ->
  failures_as_specified data (validateForm (enter data p)).
Proof.
  intros Ho Ht Hm Hs.
  destruct (validateForm_request data p) as (Hr & Hi & _).
  unfold failures_as_specified. rewrite Hr, Hi. split; lia.
Qed.

(** C2, as the specification states it, fails: with -5 in the seconds input
    (1000 W, 1 min, 700 W) [validateForm] returns [true] and shows no
    error. *)
Lemma negative_seconds_counterexample :
  let data := mkFormData 1000 1 (-5) 700 in
  let o := validateForm (pageOf data) in
  returned o = true /\ shown o = [] /\
  ~ failures_as_specified data o.
Proof.
  cbv zeta. split; [reflexivity |]. split; [reflexivity |].
  intros (_ & Htime).
  assert (H : failsWith InvalidTime
                (validateForm (pageOf (mkFormData 1000 1 (-5) 700))) = true).
  { apply Htime. left. simpl. lia. }
  vm_compute in H. discriminate.
Qed.

(** The boundary cases the specification lists. *)
Example wattage_99_rejected :
  failsWith OutOfRange (validateForm (pageOf (mkFormData 99 1 0 700))) = true.
Proof. reflexivity. Qed.

Example wattage_2001_rejected :
  failsWith OutOfRange (validateForm (pageOf (mkFormData 1000 1 0 2001)))
  = true.
Proof. reflexivity. Qed.

Example wattage_100_2000_accepted :
  returned (validateForm (pageOf (mkFormData 100 1 0 2000))) = true.
Proof. reflexivity. Qed.

Example zero_time_rejected :
  failsWith InvalidTime (validateForm (pageOf (mkFormData 1000 0 0 700)))
  = true.
Proof. reflexivity. Qed.

Example one_second_accepted :
  returned (validateForm (pageOf (mkFormData 1000 0 1 700))) = true.
Proof. reflexivity. Qed.

(** Both time inputs share one container: the error shown for 61 minutes is
    cleared again when the seconds are validated, yet the form is
    rejected. *)
Example minutes_error_cleared :
  let o := validateForm (pageOf (mkFormData 1000 61 5 700)) in
  returned o = false /\
  shown o = [(CookingTimeGroup, "Minutes should be reasonable (≤60)")] /\
  failsWith InvalidTime o = true /\
  container (page o) CookingTimeGroup =
    {| classError := false; classSuccess := true; errorMessage := None |}.
Proof. repeat split. Qed.

(** A wattage of zero is reported as a missing field, not as out of
    range. *)
Example wattage_0_required :
  let o := validateForm (pageOf (mkFormData 0 1 0 700)) in
  shown o = [(RecipeGroup, "This field is required")] /\
  failsWith MissingField o = true /\ failsWith OutOfRange o = false.
Proof. repeat split. Qed.

(** The handlers of [addInputFormatting] keep the time inputs from holding
    a negative number or one above their maximum, and the wattage inputs
    from holding a negative number or one above 2000. *)
Lemma secondsInputHandler_range (p : Page) :
  match value (secondsInputHandler p) OriginalSeconds with
  | Some seconds => 0 <= seconds <= 59
  | None => True
  end.
Proof.
  unfold secondsInputHandler, JS.parseInt.
  destruct (value p OriginalSeconds) as [s |] eqn:Hs; cbn [JS.gt JS.lt].
  - destruct (Z.ltb_spec 59 s), (Z.ltb_spec s 0); cbn; try rewrite Hs; lia.
  - now rewrite Hs.
Qed.

Lemma minutesInputHandler_range (p : Page) :
  match value (minutesInputHandler p) OriginalMinutes with
  | Some minutes => 0 <= minutes <= 60
  | None => True
  end.
Proof.
  unfold minutesInputHandler, JS.parseInt.
  destruct (value p OriginalMinutes) as [m |] eqn:Hm; cbn [JS.gt JS.lt].
  - destruct (Z.ltb_spec 60 m), (Z.ltb_spec m 0); cbn; try rewrite Hm; lia.
  - now rewrite Hm.
Qed.

Lemma wattageInputHandler_range (input : InputId) (p : Page) :
  match value (wattageInputHandler input p) input with
  | Some watts => 0 <= watts <= 2000
  | None => True
  end.
Proof.
  assert (Hi : InputId_eqb input input = true) by now destruct input.
  unfold wattageInputHandler, JS.parseInt.
  destruct (value p input) as [w |] eqn:Hw; cbn [JS.gt JS.lt].
  - destruct (Z.ltb_spec 2000 w), (Z.ltb_spec w 0); cbn;
      try rewrite Hi; try rewrite Hw; lia.
  - now rewrite Hw.
Qed.

(** C9, as the script does it.  [validateInput] and [validateForm] leave
    the contents of the four inputs (the request) and of the result section
    as they find them; what they change is the classes and error messages
    of the containers, and what they return is a boolean. *)
Theorem validation_leaves_contents (p : Page) :
  sameContents p (page (validateForm p)) /\
  (forall input, sameContents p (page (validateInput input p))) /\
  getFormData (page (validateForm p)) = getFormData p.
Proof.
  split; [apply preserves_validateForm |].
  split; [intros input; apply preserves_validateInput |].
  destruct (preserves_validateForm p) as (Hv & _).
  unfold getFormData. now rewrite !Hv.
Qed.

(** C9, as the specification states it, fails: validating the freshly
    loaded page of a valid request changes the page, marking the container
    of the first wattage input with the class [success]. *)
Lemma validation_side_effect_counterexample :
  let p := pageOf (mkFormData 1000 2 0 700) in
  returned (validateForm p) = true /\
  classSuccess (container p RecipeGroup) = false /\
  classSuccess (container (page (validateForm p)) RecipeGroup) = true /\
  page (validateForm p) <> p /\
  page (validateInput OriginalWattage p) <> p.
Proof.
  cbv zeta. repeat split.
  - intros H.
    apply (f_equal (fun q => classSuccess (container q RecipeGroup))) in H.
    vm_compute in H. discriminate.
  - intros H.
    apply (f_equal (fun q => classSuccess (container q RecipeGroup))) in H.
    vm_compute in H. discriminate.
Qed.

(** ** The claims about the formula *)



(** A positive amount shrinks strictly when divided by a larger wattage. *)
Lemma quotient_decreasing (a b c : Z) :
  0 < a -> 0 < b -> b < c ->
  (inject_Z a / inject_Z c < inject_Z a / inject_Z b)%Q.
Proof. intros Ha Hb Hc. apply quotient_lt; nia. Qed.

(** C3, as the script does it.  For two valid requests that differ only in
    a larger target wattage, the unrounded time is strictly smaller and
    [newTotalSeconds] is smaller or equal. *)
Theorem newTotalSeconds_monotone (a b : FormData) :
  validRequest a -> validRequest b ->
  originalWattage a = originalWattage b ->
  originalMinutes a = originalMinutes b ->
  originalSeconds a = originalSeconds b ->
  targetWattage a < targetWattage b ->
  let energy := originalTotalSeconds (calculateConversion a)
                * originalWattage a in
  (inject_Z energy / inject_Z (targetWattage b)
   < inject_Z energy / inject_Z (targetWattage a))%Q /\
  newTotalSeconds (calculateConversion b)
  <= newTotalSeconds (calculateConversion a).
Proof.
  intros (Hoa & Hta & Hma & Hsa & Hza) (Hob & Htb & Hmb & Hsb & Hzb)
         Ho Hm Hs Ht energy.
  assert (He : 0 < energy) by (subst energy; conversion_fields; nia).
  assert (Hlt : (inject_Z energy / inject_Z (targetWattage b)
                 < inject_Z energy / inject_Z (targetWattage a))%Q)
    by (apply quotient_decreasing; lia).
  split; [exact Hlt |].
  subst energy. conversion_fields. rewrite <- Ho, <- Hm, <- Hs.
  apply Math_round_monotone, Qlt_le_weak, Hlt.
Qed.

Lemma newTotalSeconds_monotone_witness :
  newTotalSeconds (calculateConversion (mkFormData 1000 2 0 1000))
  <= newTotalSeconds (calculateConversion (mkFormData 1000 2 0 700)).
Proof.
  refine (proj2 (newTotalSeconds_monotone
                   (mkFormData 1000 2 0 700) (mkFormData 1000 2 0 1000)
                   _ _ eq_refl eq_refl eq_refl _));
    unfold validRequest; simpl; lia.
Defined.

(** C3, as the specification states it, fails: one minute at 1000 W takes
    60 seconds both at 1000 W and at 1001 W. *)
Lemma strict_monotonicity_counterexample :
  let a := mkFormData 1000 1 0 1000 in
  let b := mkFormData 1000 1 0 1001 in
  validRequest a /\ validRequest b /\
  targetWattage a < targetWattage b /\
  newTotalSeconds (calculateConversion a) = 60 /\
  newTotalSeconds (calculateConversion b) = 60 /\
  ~ newTotalSeconds (calculateConversion b)
    < newTotalSeconds (calculateConversion a).
Proof.
  cbv zeta.
  split; [unfold validRequest; simpl; lia |].
  split; [unfold validRequest; simpl; lia |].
  split; [simpl; lia |].
  split; [reflexivity |]. split; [reflexivity |].
  vm_compute. discriminate.
Qed.

(** C4. For a valid request whose two wattages are equal, the converted
    time is the original time: the same total seconds, minutes and
    seconds. *)
Theorem same_wattage_same_time (data : FormData) :
  validRequest data ->
  originalWattage data = targetWattage data ->
  let result := calculateConversion data in
  newTotalSeconds result = originalTotalSeconds result /\
  newMinutes result = originalMinutes data /\
  newSeconds result = originalSeconds data.
Proof.
  intros (Ho & Ht & Hm & Hs & _) Hw result.
  assert (Hn : newTotalSeconds result = originalTotalSeconds result).
  { subst result. rewrite newTotalSeconds_quotient by lia.
    rewrite Hw. symmetry. apply Z.div_unique with (r := targetWattage data).
    - left. lia.
    - ring. }
  split; [exact Hn |].
  assert (Hfields : newMinutes result = newTotalSeconds result / 60 /\
                    newSeconds result = Z.rem (newTotalSeconds result) 60).
  { subst result. conversion_fields. split;
      [apply Math_floor_quotient | reflexivity]. }
  destruct Hfields as (Hmin & Hsec). rewrite Hmin, Hsec, Hn.
  subst result. conversion_fields. split.
  - symmetry. apply Z.div_unique with (r := originalSeconds data); lia.
  - rewrite Z.rem_mod_nonneg by lia.
    symmetry. apply Z.mod_unique with (q := originalMinutes data); lia.
Qed.

Lemma same_wattage_same_time_witness :
  let result := calculateConversion (mkFormData 800 8 30 800) in
  newTotalSeconds result = 510 /\ newMinutes result = 8 /\
  newSeconds result = 30.
Proof.
  refine (same_wattage_same_time (mkFormData 800 8 30 800) _ eq_refl).
  unfold validRequest; simpl; lia.
Defined.




(** Rounding the ratio before the multiplication would change the result:
    120 s times 1.43 rounds to 172 s, the script gives 171 s. *)
Example rounded_ratio_would_differ :
  let data := mkFormData 1000 2 0 700 in
  let result := calculateConversion data in
  JS.Math_round (inject_Z (originalTotalSeconds result)
                 * round_2_decimals (ratio result)) = 172 /\
  newTotalSeconds result = 171.
Proof. split; reflexivity. Qed.

(** ** The host's division

    The script divides with double-precision numbers; the embedding divides
    exactly.  This section shows that the difference cannot be seen in the
    values the script derives from a quotient.  The host's quotient is the
    double nearest to the exact one, [nearest]: all that is used of it is
    that it is monotone and that it leaves the multiples of 1/65536 below
    2^37 as they are, which are doubles. *)

Section HostDivision.

Variable nearest : Q -> Q.

Hypothesis nearest_monotone :
  forall x y : Q, (x <= y)%Q -> (nearest x <= nearest y)%Q.

Hypothesis nearest_exact :
  forall k : Z,
    Z.abs k < 2 ^ 53 ->
    (nearest (inject_Z k / inject_Z 65536)
     == inject_Z k / inject_Z 65536)%Q.

Lemma nearest_between (lo hi : Z) (x : Q) :
  Z.abs lo < 2 ^ 53 -> Z.abs hi < 2 ^ 53 ->
  (inject_Z lo / inject_Z 65536 <= x)%Q ->
  (x <= inject_Z hi / inject_Z 65536)%Q ->
  (inject_Z lo / inject_Z 65536 <= nearest x)%Q /\
  (nearest x <= inject_Z hi / inject_Z 65536)%Q.
Proof.
  intros Hlo Hhi Hx Hy. split.
  - rewrite <- (nearest_exact lo Hlo). now apply nearest_monotone.
  - rewrite <- (nearest_exact hi Hhi). now apply nearest_monotone.
Qed.

(** [Math.round] of the host's quotient is [Math.round] of the exact one. *)
Lemma Math_round_nearest (a b : Z) :
  0 <= a < 2 ^ 36 -> 0 < b <= 32768 ->
  JS.Math_round (nearest (inject_Z a / inject_Z b)) =
  JS.Math_round (inject_Z a / inject_Z b).
Proof.
  intros Ha Hb. rewrite (Math_round_quotient a b) by lia.
  set (n := (2 * a + b) / (2 * b)).
  assert (Hn : 2 * b * n <= 2 * a + b < 2 * b * (n + 1)).
  { subst n. pose proof (Z.mul_div_le (2 * a + b) (2 * b)).
    pose proof (Z.mul_succ_div_gt (2 * a + b) (2 * b)). lia. }
  assert (Hn0 : 0 <= n <= a + 1) by nia.
  destruct (nearest_between (65536 * n - 32768) (65536 * n + 32767)
              (inject_Z a / inject_Z b)) as (Hlo & Hhi);
    [lia | lia | apply quotient_le; nia | apply quotient_le; nia |].
  unfold JS.Math_round. apply Qfloor_unique.
  - apply Qle_trans
      with (inject_Z (65536 * n - 32768) / inject_Z 65536 + (1 # 2))%Q.
    + unfold Qle, Qdiv, Qmult, Qinv, Qplus, inject_Z. cbn [Qnum Qden]. lia.
    + now apply Qplus_le_l.
  - apply Qle_lt_trans
      with (inject_Z (65536 * n + 32767) / inject_Z 65536 + (1 # 2))%Q.
    + now apply Qplus_le_l.
    + unfold Qlt, Qdiv, Qmult, Qinv, Qplus, inject_Z. cbn [Qnum Qden]. lia.
Qed.

(** [Math.floor] of the host's quotient by 60 is the integer quotient. *)
Lemma Math_floor_nearest (n : Z) :
  0 <= n < 2 ^ 36 ->
  JS.Math_floor (nearest (inject_Z n / inject_Z 60)) = n / 60.
Proof.
  intros Hn. set (q := n / 60).
  assert (Hq : 60 * q <= n < 60 * (q + 1)).
  { subst q. pose proof (Z.mul_div_le n 60).
    pose proof (Z.mul_succ_div_gt n 60). lia. }
  destruct (nearest_between (65536 * q) (65536 * q + 65535)
              (inject_Z n / inject_Z 60)) as (Hlo & Hhi);
    [lia | lia | apply quotient_le; lia | apply quotient_le; lia |].
  unfold JS.Math_floor. apply Qfloor_unique.
  - eapply Qle_trans; [| exact Hlo].
    unfold Qle, Qdiv, Qmult, Qinv, inject_Z. cbn [Qnum Qden]. lia.
  - eapply Qle_lt_trans; [exact Hhi |].
    unfold Qlt, Qdiv, Qmult, Qinv, inject_Z. cbn [Qnum Qden]. lia.
Qed.

(** On a valid request the script's total and minutes, computed with the
    host's division, are those of [calculateConversion]. *)
Lemma calculateConversion_nearest (data : FormData) :
  validRequest data ->
  let result := calculateConversion data in
  JS.Math_round
    (nearest (inject_Z (originalTotalSeconds result * originalWattage data)
              / inject_Z (targetWattage data)))
  = newTotalSeconds result /\
  JS.Math_floor (nearest (inject_Z (newTotalSeconds result) / inject_Z 60))
  = newMinutes result.
Proof.
  intros (Ho & Ht & Hm & Hs & _) result.
  assert (Hn : 0 <= newTotalSeconds result <= 7320000).
  { subst result. rewrite newTotalSeconds_quotient by lia.
    conversion_fields. split; [apply Z.div_pos; nia |].
    apply Z.div_le_upper_bound; nia. }
  split.
  - subst result. conversion_fields. apply Math_round_nearest; nia.
  - rewrite Math_floor_nearest by lia.
    subst result. conversion_fields. symmetry. apply Math_floor_quotient.
Qed.

(** The two tests of [getPowerLevelRecommendation] on the host's ratio,
    where the literal [0.7] is the double nearest to 7/10. *)
Lemma ratio_above_nearest (original target : Z) :
  0 < original < 2 ^ 36 -> 0 < target <= 32768 ->
  let r := (inject_Z original / inject_Z target)%Q in
  (3 # 2 < nearest r)%Q <-> (3 # 2 < r)%Q.
Proof.
  intros Ho Ht r.
  assert (Hhalf : (3 # 2 == inject_Z 98304 / inject_Z 65536)%Q)
    by reflexivity.
  split.
  - intros H. apply Qnot_le_lt. intros Hr.
    rewrite Hhalf in Hr. apply nearest_monotone in Hr.
    rewrite nearest_exact in Hr by (cbn; lia).
    rewrite Hhalf in H. now apply Qlt_not_le in H.
  - intros H. rewrite Hhalf in H. subst r.
    assert (Hz : 98304 * target < original * 65536).
    { apply Z.nle_gt. intros Hle.
      apply (quotient_le original target 98304 65536) in Hle; [| lia | lia].
      now apply Qlt_not_le in H. }
    apply Qlt_le_trans with (inject_Z 98305 / inject_Z 65536)%Q;
      [reflexivity |].
    rewrite <- (nearest_exact 98305) by (cbn; lia).
    apply nearest_monotone, quotient_le; lia.
Qed.

Lemma ratio_below_nearest (original target : Z) :
  0 < original < 2 ^ 36 -> 0 < target <= 5000 ->
  let r := (inject_Z original / inject_Z target)%Q in
  (nearest r < nearest (7 # 10))%Q <-> (r < 7 # 10)%Q.
Proof.
  intros Ho Ht r.
  assert (Hlit : (7 # 10 == inject_Z 7 / inject_Z 10)%Q) by reflexivity.
  split.
  - intros H. apply Qnot_le_lt. intros Hr.
    apply nearest_monotone in Hr. now apply Qlt_not_le in H.
  - intros H. rewrite Hlit in H. subst r.
    assert (Hz : original * 10 < 7 * target).
    { apply Z.nle_gt. intros Hle.
      apply (quotient_le 7 10 original target) in Hle; [| lia | lia].
      now apply Qlt_not_le in H. }
    apply Qle_lt_trans with (inject_Z 45874 / inject_Z 65536)%Q.
    + rewrite <- (nearest_exact 45874) by (cbn; lia).
      apply nearest_monotone, quotient_le; lia.
    + apply Qlt_le_trans with (inject_Z 45875 / inject_Z 65536)%Q;
        [reflexivity |].
      rewrite <- (nearest_exact 45875) by (cbn; lia).
      apply nearest_monotone. apply Qle_trans with (inject_Z 7 / inject_Z 10)%Q;
        [apply quotient_le; lia | now rewrite Hlit].
Qed.

(** The host's ratio of 1000 W over 700 W is below 1.4286, hence not 1.43. *)
Lemma ratio_nearest_not_rounded :
  ~ (nearest (inject_Z 1000 / inject_Z 700) == 143 # 100)%Q.
Proof.
  intros H.
  assert (Hle : (nearest (inject_Z 1000 / inject_Z 700)
                 <= inject_Z 93623 / inject_Z 65536)%Q).
  { rewrite <- (nearest_exact 93623) by (cbn; lia).
    apply nearest_monotone, quotient_le; lia. }
  rewrite H in Hle. revert Hle. apply Qlt_not_le. reflexivity.
Qed.

End HostDivision.

(** Exact division is one such [nearest]. *)
Example calculateConversion_exact_nearest :
  JS.Math_round
    ((fun x : Q => x) (inject_Z (120 * 1000) / inject_Z 700)%Q) = 171.
Proof.
  assert (Hv : validRequest (mkFormData 1000 2 0 700))
    by (unfold validRequest; simpl; lia).
  exact (proj1 (calculateConversion_nearest (fun x => x)
                  (fun x y H => H) (fun k _ => Qeq_refl _) _ Hv)).
Qed.

(** ** The power-level recommendation *)

(** C5. For positive wattages, with [r] their unrounded quotient,
    [getPowerLevelRecommendation] gives "70-80%" when [r > 1.5], "100%" with
    the less-powerful reason when [r < 0.7], and "100%" with the
    similar-power reason otherwise. *)
Theorem getPowerLevelRecommendation_cases (original target : Z) :
  0 < original -> 0 < target ->
  let r := (inject_Z original / inject_Z target)%Q in
  let recommendation := Utils.getPowerLevelRecommendation original target in
  ((3 # 2 < r)%Q ->
   recommendation =
   {| Utils.powerLevel := "70-80%";
      Utils.reason := "Your microwave is much more powerful. Consider using a lower power level." |}) /\
  ((r < 7 # 10)%Q ->
   recommendation =
   {| Utils.powerLevel := "100%";
      Utils.reason := "Your microwave is less powerful. Use full power and check frequently." |}) /\
  ((7 # 10 <= r)%Q -> (r <= 3 # 2)%Q ->
   recommendation =
   {| Utils.powerLevel := "100%";
      Utils.reason := "Your microwave power is similar to the recipe. Use normal power." |}).
Proof.
  intros _ _ r recommendation. subst recommendation.
  unfold Utils.getPowerLevelRecommendation. fold r.
  destruct (Qle_bool r (3 # 2)) eqn:Hhigh;
    destruct (Qle_bool (7 # 10) r) eqn:Hlow; cbn [negb].
  - apply Qle_bool_iff in Hhigh, Hlow. repeat split.
    + intros H. now apply Qlt_not_le in H.
    + intros H. now apply Qlt_not_le in H.
  - apply Qle_bool_iff in Hhigh. repeat split.
    + intros H. now apply Qlt_not_le in H.
    + intros H. apply Qle_bool_iff in H. congruence.
  - apply Qle_bool_iff in Hlow. repeat split.
    + intros H. now apply Qlt_not_le in H.
    + intros _ H. apply Qle_bool_iff in H. congruence.
  - assert (Hr : (3 # 2 < r)%Q).
    { apply Qnot_le_lt. intros H. apply Qle_bool_iff in H. congruence. }
    assert (Hl : (r < 7 # 10)%Q).
    { apply Qnot_le_lt. intros H. apply Qle_bool_iff in H. congruence. }
    exfalso. apply (Qlt_irrefl r).
    apply Qlt_trans with (7 # 10)%Q; [exact Hl |].
    apply Qlt_trans with (3 # 2)%Q; [reflexivity | exact Hr].
Qed.

Lemma getPowerLevelRecommendation_cases_witness :
  Utils.powerLevel (Utils.getPowerLevelRecommendation 1000 600) = "70-80%" /\
  Utils.reason (Utils.getPowerLevelRecommendation 600 1000) =
    "Your microwave is less powerful. Use full power and check frequently." /\
  Utils.reason (Utils.getPowerLevelRecommendation 1000 700) =
    "Your microwave power is similar to the recipe. Use normal power.".
Proof.
  split; [| split].
  - rewrite (proj1 (getPowerLevelRecommendation_cases 1000 600
                      ltac:(lia) ltac:(lia))); reflexivity.
  - rewrite (proj1 (proj2 (getPowerLevelRecommendation_cases 600 1000
                             ltac:(lia) ltac:(lia)))); reflexivity.
  - rewrite (proj2 (proj2 (getPowerLevelRecommendation_cases 1000 700
                             ltac:(lia) ltac:(lia))));
      [reflexivity | vm_compute; discriminate | vm_compute; discriminate].
Defined.

Example recommendation_at_thresholds :
  Utils.powerLevel (Utils.getPowerLevelRecommendation 1500 1000) = "100%" /\
  Utils.reason (Utils.getPowerLevelRecommendation 700 1000) =
    "Your microwave power is similar to the recipe. Use normal power.".
Proof. split; reflexivity. Qed.

(** ** Further properties of the formula *)

Lemma newTotalSeconds_bracket (data : FormData) :
  0 < targetWattage data ->
  let result := calculateConversion data in
  let energy := originalTotalSeconds result * originalWattage data in
  2 * targetWattage data * newTotalSeconds result <= 2 * energy + targetWattage data
  /\ 2 * energy + targetWattage data
     < 2 * targetWattage data * (newTotalSeconds result + 1).
Proof.
  intros Ht result energy. subst result energy.
  rewrite newTotalSeconds_quotient by exact Ht.
  set (n := 2 * (originalTotalSeconds (calculateConversion data)
                 * originalWattage data) + targetWattage data).
  pose proof (Z.mul_div_le n (2 * targetWattage data)).
  pose proof (Z.mul_succ_div_gt n (2 * targetWattage data)). lia.
Qed.

Lemma conversion_split (data : FormData) :
  let result := calculateConversion data in
  newMinutes result = newTotalSeconds result / 60 /\
  newSeconds result = Z.rem (newTotalSeconds result) 60.
Proof.
  cbv zeta. conversion_fields. split;
    [apply Math_floor_quotient | reflexivity].
Qed.

(** Minutes and seconds of the converted total. *)
Lemma conversion_recompose (data : FormData) :
  0 <= originalMinutes data -> 0 <= originalSeconds data ->
  0 <= originalWattage data -> 0 < targetWattage data ->
  let result := calculateConversion data in
  newTotalSeconds result = 60 * newMinutes result + newSeconds result /\
  0 <= newSeconds result <= 59 /\
  0 <= newMinutes result.
Proof.
  intros Hm Hs Ho Ht result.
  assert (Hn : 0 <= newTotalSeconds result)
    by (now apply newTotalSeconds_nonneg).
  destruct (conversion_split data) as (Hmin & Hsec).
  fold result in Hmin, Hsec. rewrite Hmin, Hsec.
  rewrite Z.rem_mod_nonneg by lia.
  pose proof (Z.div_mod (newTotalSeconds result) 60 ltac:(lia)).
  pose proof (Z.mod_pos_bound (newTotalSeconds result) 60 ltac:(lia)).
  split; [lia |]. split; [lia |]. apply Z.div_pos; lia.
Qed.









(** X5. On a valid request the converted total is at most 73180 seconds
    and the converted minutes at most 1219, and at least one second as soon
    as the target wattage is at most twice the original wattage. *)
Theorem conversion_bounds (data : FormData) :
  validRequest data ->
  let result := calculateConversion data in
  0 <= newTotalSeconds result <= 73180 /\
  0 <= newMinutes result <= 1219 /\
  (targetWattage data <= 2 * originalWattage data ->
   1 <= newTotalSeconds result).
Proof.
  intros (Ho & Ht & Hm & Hs & Hz) result.
  pose proof (newTotalSeconds_bracket data ltac:(lia)) as H.
  cbv zeta in H. fold result in H.
  assert (Hots : 1 <= originalTotalSeconds result <= 3659)
    by (subst result; conversion_fields; lia).
  assert (He : 1 <= originalTotalSeconds result * originalWattage data
               <= 7318000) by nia.
  assert (Hn : 0 <= newTotalSeconds result <= 73180).
  { split; [nia |].
    destruct (Z.le_gt_cases (newTotalSeconds result) 73180) as [Hle | Hgt];
      [exact Hle |].
    assert (targetWattage data * 73181
            <= targetWattage data * newTotalSeconds result)
      by (apply Z.mul_le_mono_nonneg_l; lia).
    lia. }
  split; [exact Hn |].
  destruct (conversion_split data) as (Hmin & _). fold result in Hmin.
  split.
  - rewrite Hmin. split; [apply Z.div_pos; lia |].
    assert (newTotalSeconds result / 60 < 1220)
      by (apply Z.div_lt_upper_bound; lia).
    lia.
  - intros Hw. nia.
Qed.

Lemma conversion_bounds_witness :
  let result := calculateConversion (mkFormData 2000 60 59 100) in
  0 <= newTotalSeconds result <= 73180 /\
  0 <= newMinutes result <= 1219 /\
  (100 <= 2 * 2000 -> 1 <= newTotalSeconds result).
Proof.
  apply (conversion_bounds (mkFormData 2000 60 59 100)).
  unfold validRequest; simpl; lia.
Defined.

Example conversion_bounds_attained :
  let result := calculateConversion (mkFormData 2000 60 59 100) in
  newTotalSeconds result = 73180 /\ newMinutes result = 1219.
Proof. split; reflexivity. Qed.



(** The way back from a weaker to a stronger microwave can lose time: one
    second at 100 W is no time at 2000 W. *)
Example conversion_no_round_trip :
  let result := calculateConversion (mkFormData 100 0 1 2000) in
  newTotalSeconds
    (calculateConversion
       (mkFormData 2000 (newMinutes result) (newSeconds result) 100)) = 0.
Proof. reflexivity. Qed.



(** X8. With the same wattages, the original wattage not negative and the
    target wattage positive, a longer recipe time never gets a shorter
    converted time. *)
Theorem conversion_monotone_in_time (a b : FormData) :
  originalWattage a = originalWattage b ->
  targetWattage a = targetWattage b ->
  0 <= originalWattage a -> 0 < targetWattage a ->
  originalTotalSeconds (calculateConversion a)
  <= originalTotalSeconds (calculateConversion b) ->
  newTotalSeconds (calculateConversion a)
  <= newTotalSeconds (calculateConversion b).
Proof.
  intros Ho Ht Hopos Htpos Hots. conversion_fields.
  rewrite <- Ho, <- Ht.
  apply Math_round_monotone, quotient_le; try lia.
  apply Z.mul_le_mono_nonneg_r; [lia |].
  apply Z.mul_le_mono_nonneg_r; lia.
Qed.

Lemma conversion_monotone_in_time_witness :
  newTotalSeconds (calculateConversion (mkFormData 1000 1 59 700))
  <= newTotalSeconds (calculateConversion (mkFormData 1000 2 0 700)).
Proof.
  apply (conversion_monotone_in_time (mkFormData 1000 1 59 700)
           (mkFormData 1000 2 0 700)); simpl; try reflexivity; lia.
Defined.

(** ** What validation displays *)

Lemma validateInput_page (input : InputId) (p : Page) :
  page (validateInput input p) =
  match rejection input (value p input) with
  | Some message =>
      page (showError (closest_group input) message
              (page (clearErrors input p)))
  | None => page (showSuccess (closest_group input)
                    (page (clearErrors input p)))
  end.
Proof.
  unfold validateInput, rejection.
  cbv [bind ret read modify record_error returned page shown].
  repeat (match goal with
          | |- context [if ?c then _ else _] => destruct c
          end; try reflexivity).
Qed.

Ltac page_simpl :=
  repeat first
    [ progress cbn [container errorMessage classError classSuccess
                    ContainerId_eqb value resultTime resultExplanation
                    resultHidden negb andb orb]
    | match goal with
      | H : errorMessage (container _ _) = _ |- _ => rewrite H
      end ].

Ltac page_unfold :=
  cbv [bind ret read modify record_error showError showSuccess clearErrors
       returned page shown displayedError removeErrorMessage setClasses
       querySelector_error_message setContainer closest_group below].

Ltac page_cases :=
  page_unfold; page_simpl;
  repeat (match goal with
          | |- context [match errorMessage (container ?p ?h) with
                        | Some _ => _
                        | None => _
                        end] =>
              is_var p; destruct (errorMessage (container p h)) eqn:?
          end; page_simpl).

Lemma showError_display (g : ContainerId) (message : string) (p : Page) :
  let q := page (showError g message p) in
  classError (container q g) = true /\
  classSuccess (container q g) = false /\
  displayedError g q = Some message.
Proof.
  cbv zeta. destruct g; page_cases; repeat split; assumption.
Qed.

Lemma showSuccess_display (input : InputId) (p : Page) :
  let g := closest_group input in
  let q := page (showSuccess g (page (clearErrors input p))) in
  classError (container q g) = false /\
  classSuccess (container q g) = true /\
  forall h, below g h = true -> errorMessage (container q h) = None.
Proof.
  cbv zeta. destruct input; page_cases; repeat split;
    intros h; destruct h; page_simpl; intros; try discriminate;
    try reflexivity; assumption.
Qed.

Lemma clearErrors_frame (input : InputId) (p : Page) (h : ContainerId) :
  below (closest_group input) h = false ->
  container (page (clearErrors input p)) h = container p h.
Proof.
  destruct input, h; page_cases; intros; try discriminate; reflexivity.
Qed.

Lemma showError_frame (g : ContainerId) (message : string) (p : Page)
    (h : ContainerId) :
  below g h = false ->
  container (page (showError g message p)) h = container p h.
Proof.
  destruct g, h; page_cases; intros; try discriminate; reflexivity.
Qed.

Lemma showSuccess_frame (g : ContainerId) (p : Page) (h : ContainerId) :
  below g h = false ->
  container (page (showSuccess g p)) h = container p h.
Proof.
  destruct g, h; page_cases; intros; try discriminate; reflexivity.
Qed.

Lemma displayedError_none (g : ContainerId) (p : Page) :
  (forall h, below g h = true -> errorMessage (container p h) = None) ->
  displayedError g p = None.
Proof.
  intros H. unfold displayedError, querySelector_error_message.
  destruct g; rewrite ?(H TimeRow), ?(H RecipeGroup),
    ?(H CookingTimeGroup), ?(H MicrowaveGroup) by reflexivity; reflexivity.
Qed.

(** X9. After [validateInput], the container of the input shows the
    verdict: it has the class [success] exactly when the input was accepted
    and the class [error] exactly when it was rejected, and the error
    message displayed in it is the message of the first rule the content
    breaks, none when it was accepted. *)
Theorem validateInput_display (input : InputId) (p : Page) :
  let o := validateInput input p in
  let g := closest_group input in
  classSuccess (container (page o) g) = returned o /\
  classError (container (page o) g) = negb (returned o) /\
  displayedError g (page o) = rejection input (value p input).
Proof.
  cbv zeta. rewrite validateInput_returned, validateInput_page.
  destruct (rejection input (value p input)) as [message |].
  - destruct (showError_display (closest_group input) message
                (page (clearErrors input p))) as (He & Hs & Hd).
    now rewrite He, Hs, Hd.
  - destruct (showSuccess_display input p) as (He & Hs & Hd).
    cbv zeta in He, Hs, Hd. rewrite He, Hs.
    now rewrite displayedError_none.
Qed.

Lemma validateInput_frame (input : InputId) (p : Page) (h : ContainerId) :
  below (closest_group input) h = false ->
  container (page (validateInput input p)) h = container p h.
Proof.
  intros Hh. rewrite validateInput_page.
  destruct (rejection input (value p input)) as [message |].
  - rewrite showError_frame by exact Hh. now apply clearErrors_frame.
  - rewrite showSuccess_frame by exact Hh. now apply clearErrors_frame.
Qed.

(** X10. [validateInput] touches only the container of its input, and for
    a time input the time row inside it: every other container, the
    contents of all inputs and the result section stay as they were. *)
Theorem validateInput_touches_own_group (input : InputId) (p : Page)
    (h : ContainerId) :
  below (closest_group input) h = false ->
  container (page (validateInput input p)) h = container p h /\
  sameContents p (page (validateInput input p)).
Proof.
  intros Hh. split; [now apply validateInput_frame |].
  apply preserves_validateInput.
Qed.

Lemma validateInput_touches_own_group_witness :
  let p := page (validateForm (pageOf (mkFormData 0 61 5 2001))) in
  container (page (validateInput OriginalMinutes p)) RecipeGroup
  = container p RecipeGroup /\
  sameContents p (page (validateInput OriginalMinutes p)).
Proof.
  apply (validateInput_touches_own_group OriginalMinutes
           (page (validateForm (pageOf (mkFormData 0 61 5 2001))))
           RecipeGroup).
  reflexivity.
Defined.

Lemma validateInputs_page (p : Page) (isValid : bool) :
  page (validateInputs inputs isValid p) = validatedInputs p.
Proof. reflexivity. Qed.

Lemma validateForm_page (p : Page) :
  page (validateForm p) =
  if noCookingTime p
  then page (showError TimeRow "Please specify at least some cooking time"
               (validatedInputs p))
  else validatedInputs p.
Proof.
  unfold validateForm. rewrite page_bind, validateInputs_page.
  destruct (validateInputs_outcome inputs true p) as (_ & _ & Hv & _).
  rewrite validateInputs_page in Hv.
  unfold read at 1 2. rewrite !page_bind. cbn [returned page].
  rewrite !Hv. fold (noCookingTime p).
  now destruct (noCookingTime p).
Qed.

Lemma validateForm_contents_only (p q : Page) :
  (forall input, value q input = value p input) ->
  returned (validateForm q) = returned (validateForm p) /\
  shown (validateForm q) = shown (validateForm p).
Proof.
  intros Hv. rewrite !validateForm_returned, !validateForm_shown.
  assert (Hz : noCookingTime q = noCookingTime p)
    by (unfold noCookingTime; now rewrite !Hv).
  assert (Ha : forall i, accepts q i = accepts p i)
    by (intros i; unfold accepts; now rewrite Hv).
  assert (Hr : forall i, rejections q i = rejections p i)
    by (intros i; unfold rejections; now rewrite Hv).
  rewrite Hz, (forallb_pointwise _ _ inputs Ha), (flat_map_ext _ _ Hr).
  split; reflexivity.
Qed.

(** X11. The verdict of [validateForm] and the errors it shows depend only
    on the contents of the inputs, not on classes or messages left by an
    earlier validation; in particular validating again gives the same
    verdict. *)
Theorem validateForm_depends_on_contents (p q : Page) :
  (forall input, value q input = value p input) ->
  returned (validateForm q) = returned (validateForm p) /\
  shown (validateForm q) = shown (validateForm p) /\
  returned (validateForm (page (validateForm p))) = returned (validateForm p).
Proof.
  intros Hv. destruct (validateForm_contents_only p q Hv) as (Hr & Hs).
  split; [exact Hr |]. split; [exact Hs |].
  apply validateForm_contents_only. apply preserves_validateForm.
Qed.

Lemma validateForm_depends_on_contents_witness :
  let p := pageOf (mkFormData 1000 61 5 700) in
  let q := page (validateForm p) in
  returned (validateForm q) = returned (validateForm p) /\
  shown (validateForm q) = shown (validateForm p) /\
  returned (validateForm (page (validateForm p))) = returned (validateForm p).
Proof.
  apply (validateForm_depends_on_contents
           (pageOf (mkFormData 1000 61 5 700))
           (page (validateForm (pageOf (mkFormData 1000 61 5 700))))).
  intros input. destruct input; reflexivity.
Defined.

Lemma rejection_none_wattage (input : InputId) (text : option Z) :
  input = OriginalWattage \/ input = TargetWattage ->
  rejection input text = None <->
  exists watts, text = Some watts /\ 100 <= watts <= 2000.
Proof.
  intros Hi. destruct text as [watts |].
  - rewrite rejection_wattage by exact Hi. split.
    + intros H. exists watts. split; [reflexivity |].
      destruct (Z.leb_spec watts 0); [discriminate |].
      destruct (Z.ltb_spec watts 100); [discriminate |].
      destruct (Z.ltb_spec 2000 watts); [discriminate | lia].
    + intros (w & Hw & Hr). injection Hw as <-.
      destruct (Z.leb_spec watts 0); [lia |].
      destruct (Z.ltb_spec watts 100); [lia |].
      destruct (Z.ltb_spec 2000 watts); [lia | reflexivity].
  - split; [| intros (w & Hw & _); discriminate].
    destruct Hi as [-> | ->]; discriminate.
Qed.

Lemma rejection_none_minutes (text : option Z) :
  rejection OriginalMinutes text = None <-> JS.orZero text <= 60 \/ text = None.
Proof.
  destruct text as [m |]; [| split; [now right | reflexivity]].
  rewrite rejection_minutes. cbn [JS.orZero].
  destruct (Z.ltb_spec 60 m); split; try discriminate; try lia.
  - intros [H' | H']; [lia | discriminate].
  - reflexivity.
Qed.

Lemma rejection_none_seconds (text : option Z) :
  rejection OriginalSeconds text = None <-> JS.orZero text <= 59 \/ text = None.
Proof.
  destruct text as [s |]; [| split; [now right | reflexivity]].
  rewrite rejection_seconds. cbn [JS.orZero].
  destruct (Z.ltb_spec 59 s); split; try discriminate; try lia.
  - intros [H' | H']; [lia | discriminate].
  - reflexivity.
Qed.

(** The requests [validateForm] accepts, read through [getFormData]. *)
Lemma validateForm_accepted_request (p : Page) :
  returned (validateForm p) = true <->
  exists data,
    getFormData p = Some data /\
    100 <= originalWattage data <= 2000 /\
    100 <= targetWattage data <= 2000 /\
    originalMinutes data <= 60 /\
    originalSeconds data <= 59 /\
    ~ (originalMinutes data = 0 /\ originalSeconds data = 0).
Proof.
  rewrite validateForm_returned. unfold inputs. cbn [forallb].
  rewrite !andb_true_iff, negb_true_iff.
  unfold accepts, noCookingTime, getFormData, JS.parseInt.
  assert (Hnone : forall r : option string,
             (match r with Some _ => false | None => true end) = true
             <-> r = None)
    by (intros [m' |]; split; congruence).
  rewrite !Hnone.
  rewrite (rejection_none_wattage OriginalWattage) by auto.
  rewrite (rejection_none_wattage TargetWattage) by auto.
  rewrite rejection_none_minutes, rejection_none_seconds.
  rewrite andb_false_iff, !Z.eqb_neq.
  destruct (value p OriginalWattage) as [ow |];
    [| split;
       [ intros (((w & Hw & _) & _) & _); discriminate
       | intros (data & Hd & _); discriminate ] ].
  destruct (value p TargetWattage) as [tw |];
    [| split;
       [ intros ((_ & _ & _ & (w & Hw & _) & _) & _); discriminate
       | intros (data & Hd & _); discriminate ] ].
  split.
  - intros (((w & Hw & Hr) & Hm & Hs & (w' & Hw' & Hr') & _) & Hz).
    injection Hw as <-. injection Hw' as <-.
    eexists. split; [reflexivity |].
    cbn [originalWattage targetWattage originalMinutes originalSeconds].
    destruct (value p OriginalMinutes) as [m |],
             (value p OriginalSeconds) as [s |]; cbn [JS.orZero] in *;
      repeat split; try lia;
      try (destruct Hm as [? | ?]; [lia | discriminate]);
      try (destruct Hs as [? | ?]; [lia | discriminate]).
  - intros (data & Hd & Ho & Ht & Hm & Hs & Hz). injection Hd as <-.
    cbn [originalWattage targetWattage originalMinutes originalSeconds] in *.
    repeat split; eauto; lia.
Qed.


Lemma validateInput_accepted_display (input : InputId) (p : Page) :
  rejection input (value p input) = None ->
  let q := page (validateInput input p) in
  classError (container q (closest_group input)) = false /\
  classSuccess (container q (closest_group input)) = true /\
  forall h, below (closest_group input) h = true ->
            errorMessage (container q h) = None.
Proof.
  intros Hr. cbv zeta. rewrite validateInput_page, Hr.
  apply showSuccess_display.
Qed.

Lemma handleSubmit_rejected_page (p : Page) :
  returned (validateForm p) = false ->
  page (handleSubmit p) = page (validateForm p).
Proof.
  intros Hno. unfold handleSubmit. now rewrite page_bind, Hno.
Qed.

(** X13. A form in which only the minutes are wrong is refused without a
    word: with both wattages in [100,2000], minutes above 60 and seconds at
    most 59, [handleSubmit] shows no result, and afterwards no container
    holds an error message and all three input groups carry the class
    [success] and not the class [error].  The message about the minutes is
    shown and then removed again when the seconds, which share the
    container, are validated. *)
Theorem minutes_rejected_silently (data : FormData) (p : Page) :
  100 <= originalWattage data <= 2000 ->
  100 <= targetWattage data <= 2000 ->
  60 < originalMinutes data ->
  originalSeconds data <= 59 ->
  let o := validateForm (enter data p) in
  let q := page (handleSubmit (enter data p)) in
  returned o = false /\
  shown o = [(CookingTimeGroup, "Minutes should be reasonable (≤60)")] /\
  (forall h, errorMessage (container q h) = None) /\
  (forall g, In g formGroups ->
             classError (container q g) = false /\
             classSuccess (container q g) = true) /\
  resultHidden q = resultHidden p.
Proof.
  intros Ho Ht Hm Hs o q.
  assert (Hret : returned o = false).
  { destruct (returned o) eqn:Hr; [| reflexivity].
    apply (validateForm_request data p) in Hr. lia. }
  assert (Hshown : shown o
                   = [(CookingTimeGroup, "Minutes should be reasonable (≤60)")]).
  { subst o. rewrite validateForm_shown.
    unfold inputs, noCookingTime, rejections.
    cbn [flat_map enter value JS.parseInt JS.orZero].
    rewrite (rejection_wattage OriginalWattage) by auto.
    rewrite (rejection_wattage TargetWattage) by auto.
    rewrite rejection_minutes, rejection_seconds.
    repeat match goal with
           | |- context [(?a <=? ?b)] => destruct (Z.leb_spec a b); try lia
           | |- context [(?a <? ?b)] => destruct (Z.ltb_spec a b); try lia
           | |- context [(?a =? ?b)] => destruct (Z.eqb_spec a b); try lia
           end; reflexivity. }
  split; [exact Hret |]. split; [exact Hshown |].
  assert (Hq : q = validatedInputs (enter data p)).
  { subst q. rewrite handleSubmit_rejected_page by exact Hret.
    rewrite validateForm_page.
    assert (Hz : noCookingTime (enter data p) = false).
    { unfold noCookingTime. cbn [enter value JS.parseInt JS.orZero].
      destruct (Z.eqb_spec (originalMinutes data) 0); [lia | reflexivity]. }
    now rewrite Hz. }
  set (p0 := enter data p) in *.
  set (p1 := page (validateInput OriginalWattage p0)).
  set (p2 := page (validateInput OriginalMinutes p1)).
  set (p3 := page (validateInput OriginalSeconds p2)).
  assert (Hq4 : q = page (validateInput TargetWattage p3)) by exact Hq.
  assert (Hv1 : forall i, value p1 i = value p0 i)
    by apply (preserves_validateInput OriginalWattage p0).
  assert (Hv2 : forall i, value p2 i = value p0 i).
  { intros i. rewrite <- Hv1.
    apply (preserves_validateInput OriginalMinutes p1). }
  assert (Hv3 : forall i, value p3 i = value p0 i).
  { intros i. rewrite <- Hv2.
    apply (preserves_validateInput OriginalSeconds p2). }
  assert (Hr1 : rejection OriginalWattage (value p0 OriginalWattage) = None).
  { apply rejection_none_wattage; [auto |]. eexists. split;
      [reflexivity | exact Ho]. }
  assert (Hr3 : rejection OriginalSeconds (value p2 OriginalSeconds) = None).
  { rewrite Hv2. apply rejection_none_seconds. left. exact Hs. }
  assert (Hr4 : rejection TargetWattage (value p3 TargetWattage) = None).
  { rewrite Hv3. apply rejection_none_wattage; [auto |]. eexists. split;
      [reflexivity | exact Ht]. }
  destruct (validateInput_accepted_display OriginalWattage p0 Hr1)
    as (He1 & Hs1 & Hm1).
  destruct (validateInput_accepted_display OriginalSeconds p2 Hr3)
    as (He3 & Hs3 & Hm3).
  destruct (validateInput_accepted_display TargetWattage p3 Hr4)
    as (He4 & Hs4 & Hm4).
  fold p1 in He1, Hs1, Hm1. fold p3 in He3, Hs3, Hm3.
  rewrite <- Hq4 in He4, Hs4, Hm4.
  assert (Hrecipe : container q RecipeGroup = container p1 RecipeGroup).
  { rewrite Hq4, validateInput_frame by reflexivity.
    unfold p3. rewrite validateInput_frame by reflexivity.
    unfold p2. now rewrite validateInput_frame by reflexivity. }
  assert (Hframe : forall h, below CookingTimeGroup h = true ->
                             container q h = container p3 h).
  { intros h Hh. rewrite Hq4. apply validateInput_frame.
    destruct h; try discriminate; reflexivity. }
  split; [| split].
  - intros h. destruct h.
    + rewrite Hrecipe. now apply Hm1.
    + rewrite Hframe by reflexivity. now apply Hm3.
    + rewrite Hframe by reflexivity. now apply Hm3.
    + now apply Hm4.
  - intros g Hg. cbn in Hg.
    destruct Hg as [<- | [<- | [<- | []]]].
    + rewrite Hrecipe. now split.
    + rewrite Hframe by reflexivity. now split.
    + now split.
  - subst q. destruct (handleSubmit_rejected (enter data p) Hret)
      as (_ & _ & _ & Hh). exact Hh.
Qed.

Lemma minutes_rejected_silently_witness :
  let q := page (handleSubmit (pageOf (mkFormData 1000 61 5 700))) in
  (forall h, errorMessage (container q h) = None) /\
  resultHidden q = true.
Proof.
  destruct (minutes_rejected_silently (mkFormData 1000 61 5 700)
              (loaded (fun _ => None))
              ltac:(simpl; lia) ltac:(simpl; lia)
              ltac:(simpl; lia) ltac:(simpl; lia))
    as (_ & _ & Hm & _ & Hh).
  split; [exact Hm | exact Hh].
Defined.

Lemma displayedError_timeRow (p : Page) :
  displayedError TimeRow p = errorMessage (container p TimeRow).
Proof.
  unfold displayedError, querySelector_error_message.
  destruct (errorMessage (container p TimeRow)) eqn:H;
    [exact H | reflexivity].
Qed.

Lemma displayedError_timeRow_first (p : Page) (message : string) :
  errorMessage (container p TimeRow) = Some message ->
  displayedError CookingTimeGroup p = Some message.
Proof.
  intros H. unfold displayedError, querySelector_error_message.
  now rewrite H.
Qed.

(** X14. When neither minutes nor seconds are given (each input is empty
    or 0) [validateForm] rejects the form, marks the time row with the
    class [error] and displays "Please specify at least some cooking time"
    in it, which is also the message displayed in the group around it. *)
Theorem no_cooking_time_display (p : Page) :
  JS.orZero (value p OriginalMinutes) = 0 ->
  JS.orZero (value p OriginalSeconds) = 0 ->
  let o := validateForm p in
  returned o = false /\
  classError (container (page o) TimeRow) = true /\
  classSuccess (container (page o) TimeRow) = false /\
  displayedError TimeRow (page o)
  = Some "Please specify at least some cooking time" /\
  displayedError CookingTimeGroup (page o)
  = Some "Please specify at least some cooking time".
Proof.
  intros Hm Hs o. subst o.
  assert (Hz : noCookingTime p = true).
  { unfold noCookingTime, JS.parseInt. now rewrite Hm, Hs. }
  rewrite validateForm_returned, validateForm_page, Hz.
  split; [now rewrite andb_false_r |].
  destruct (showError_display TimeRow
              "Please specify at least some cooking time"
              (validatedInputs p)) as (He & Hsu & Hd).
  cbv zeta in He, Hsu, Hd.
  split; [exact He |]. split; [exact Hsu |]. split; [exact Hd |].
  apply displayedError_timeRow_first. now rewrite <- displayedError_timeRow.
Qed.

Lemma no_cooking_time_display_witness :
  let o := validateForm (pageOf (mkFormData 1000 0 0 700)) in
  returned o = false /\
  classError (container (page o) TimeRow) = true /\
  classSuccess (container (page o) TimeRow) = false /\
  displayedError TimeRow (page o)
  = Some "Please specify at least some cooking time" /\
  displayedError CookingTimeGroup (page o)
  = Some "Please specify at least some cooking time".
Proof.
  apply (no_cooking_time_display (pageOf (mkFormData 1000 0 0 700)));
    reflexivity.
Defined.

Lemma keeps_ret {A : Type} (a : A) : keepsTimeRowError (ret a).
Proof. intros p H. exact H. Qed.

Lemma keeps_read {A : Type} (f : Page -> A) : keepsTimeRowError (read f).
Proof. intros p H. exact H. Qed.

Lemma keeps_bind {A B : Type} (m : Script A) (f : A -> Script B) :
  keepsTimeRowError m -> (forall a, keepsTimeRowError (f a)) ->
  keepsTimeRowError (bind m f).
Proof. intros Hm Hf p H. rewrite page_bind. apply Hf, Hm, H. Qed.

Lemma keeps_if {A : Type} (c : bool) (m1 m2 : Script A) :
  keepsTimeRowError m1 -> keepsTimeRowError m2 ->
  keepsTimeRowError (if c then m1 else m2).
Proof. now destruct c. Qed.

Lemma keeps_same_containers (f : Page -> Page) :
  (forall p, container (f p) = container p) ->
  keepsTimeRowError (modify f).
Proof. intros Hf p H. cbn [modify page]. now rewrite Hf. Qed.

Lemma keeps_showError (g : ContainerId) (message : string) :
  keepsTimeRowError (showError g message).
Proof. intros p. destruct g; page_cases; auto. Qed.

Lemma keeps_showSuccess (input : InputId) :
  keepsTimeRowError (showSuccess (closest_group input)).
Proof. intros p. destruct input; page_cases; auto. Qed.

Lemma keeps_clearErrors (input : InputId) :
  keepsTimeRowError (clearErrors input).
Proof. intros p. destruct input; page_cases; auto. Qed.

Lemma keeps_clearGroups : keepsTimeRowError (clearGroups formGroups).
Proof. intros p. unfold formGroups, clearGroups. page_cases; auto. Qed.

Create HintDb sticky.
#[local] Hint Resolve keeps_ret keeps_read keeps_bind keeps_if
  keeps_showError keeps_showSuccess keeps_clearErrors keeps_clearGroups
  : sticky.

Lemma keeps_validateInput (input : InputId) :
  keepsTimeRowError (validateInput input).
Proof.
  unfold validateInput.
  apply keeps_bind; [auto with sticky | intros text].
  apply keeps_bind; [auto with sticky | intros _].
  repeat (apply keeps_if; [auto with sticky |]).
  auto with sticky.
Qed.

Lemma keeps_validateInputs (remaining : list InputId) :
  forall isValid, keepsTimeRowError (validateInputs remaining isValid).
Proof.
  induction remaining as [| input rest IH]; intros isValid;
    cbn [validateInputs]; [apply keeps_ret |].
  apply keeps_bind; [apply keeps_validateInput | intros ok; apply IH].
Qed.

Lemma keeps_validateForm : keepsTimeRowError validateForm.
Proof.
  unfold validateForm.
  apply keeps_bind; [apply keeps_validateInputs | intros isValid].
  apply keeps_bind; [auto with sticky | intros minutes].
  apply keeps_bind; [auto with sticky | intros seconds].
  auto with sticky.
Qed.

Lemma keeps_handleSubmit : keepsTimeRowError handleSubmit.
Proof.
  unfold handleSubmit.
  apply keeps_bind; [apply keeps_validateForm | intros valid].
  apply keeps_if; [auto with sticky |].
  apply keeps_bind; [auto with sticky | intros [formData |]];
    [| auto with sticky].
  unfold displayResult. now apply keeps_same_containers.
Qed.

Lemma keeps_resetForm : keepsTimeRowError resetForm.
Proof.
  unfold resetForm.
  repeat (apply keeps_bind;
          [now apply keeps_same_containers | intros _]).
  apply keeps_clearGroups.
Qed.

Lemma formattingHandler_container (input : InputId) (p : Page) :
  container (formattingHandler input p) = container p.
Proof.
  destruct input; unfold formattingHandler, wattageInputHandler,
    secondsInputHandler, minutesInputHandler;
    repeat match goal with
           | |- context [if ?c then _ else _] => destruct c
           end; reflexivity.
Qed.

Lemma keeps_inputEvent (input : InputId) :
  keepsTimeRowError (inputEvent input).
Proof.
  unfold inputEvent.
  apply keeps_bind; [apply keeps_clearErrors | intros _].
  apply keeps_same_containers. apply formattingHandler_container.
Qed.

(** X15. Nothing takes the class [error] off the time row once
    [validateForm] has put it there: it is still there after any
    [validateInput], input event, [validateForm], [handleSubmit],
    [resetForm] or Escape key. *)
Theorem timeRow_error_is_never_removed (p : Page) :
  classError (container p TimeRow) = true ->
  (forall input,
     classError (container (page (validateInput input p)) TimeRow) = true) /\
  (forall input,
     classError (container (page (inputEvent input p)) TimeRow) = true) /\
  classError (container (page (validateForm p)) TimeRow) = true /\
  classError (container (page (handleSubmit p)) TimeRow) = true /\
  classError (container (page (resetForm p)) TimeRow) = true /\
  classError (container (page (escapeKey p)) TimeRow) = true.
Proof.
  intros H.
  split; [intros input; now apply keeps_validateInput |].
  split; [intros input; now apply keeps_inputEvent |].
  split; [now apply keeps_validateForm |].
  split; [now apply keeps_handleSubmit |].
  split; [now apply keeps_resetForm |].
  unfold escapeKey. rewrite page_bind. cbn [read returned page].
  destruct (negb (resultHidden p)); [now apply keeps_resetForm | exact H].
Qed.

Lemma timeRow_error_is_never_removed_witness :
  let p := page (validateForm (pageOf (mkFormData 1000 0 0 700))) in
  let q := page (handleSubmit (enter (mkFormData 1000 2 0 700) p)) in
  classError (container q TimeRow) = true.
Proof.
  exact (proj1 (proj2 (proj2 (proj2
           (timeRow_error_is_never_removed
              (enter (mkFormData 1000 2 0 700)
                 (page (validateForm (pageOf (mkFormData 1000 0 0 700)))))
              ltac:(vm_compute; reflexivity)))))).
Defined.

Example timeRow_error_after_success :
  let p := page (validateForm (pageOf (mkFormData 1000 0 0 700))) in
  let q := page (handleSubmit (enter (mkFormData 1000 2 0 700) p)) in
  resultHidden q = false /\ resultTime q = "2m 51s" /\
  classError (container q TimeRow) = true /\
  errorMessage (container q TimeRow) = None.
Proof. repeat split. Qed.

(** ** The input handlers *)








(** X18. [Utils.isValidWattage] and [validateInput] agree: a wattage
    input holding the integer [w] passes [validateInput] exactly when
    [isValidWattage w] holds. *)
Theorem isValidWattage_validateInput (w : Z) (p : Page) :
  returned (validateInput OriginalWattage
              (setValue OriginalWattage (Some w) p))
  = Utils.isValidWattage w /\
  returned (validateInput TargetWattage
              (setValue TargetWattage (Some w) p))
  = Utils.isValidWattage w.
Proof.
  unfold Utils.isValidWattage.
  split; rewrite validateInput_returned; cbn [setValue value InputId_eqb];
    rewrite rejection_wattage by auto;
    destruct (Z.leb_spec w 0), (Z.ltb_spec w 100), (Z.ltb_spec 2000 w),
      (Z.leb_spec 100 w), (Z.leb_spec w 2000); cbn; try reflexivity; lia.
Qed.

(** ** Submitting, resetting, quick select *)






Lemma validateInput_time_timeRow (input : InputId) (p : Page) :
  closest_group input = CookingTimeGroup ->
  errorMessage (container (page (validateInput input p)) TimeRow) = None.
Proof.
  intros Hg. rewrite validateInput_page.
  destruct (rejection input (value p input)) as [message |].
  - destruct input; try discriminate; page_cases; reflexivity.
  - destruct (showSuccess_display input p) as (_ & _ & Hm).
    apply Hm. rewrite Hg. reflexivity.
Qed.

(** After [validateForm] the time row and the group around it never hold
    an error message each. *)
Lemma validateForm_one_time_message (p : Page) :
  errorMessage (container (page (validateForm p)) TimeRow) = None \/
  errorMessage (container (page (validateForm p)) CookingTimeGroup) = None.
Proof.
  rewrite validateForm_page.
  assert (Hrow : errorMessage (container (validatedInputs p) TimeRow) = None).
  { unfold validatedInputs. rewrite validateInput_frame by reflexivity.
    now apply validateInput_time_timeRow. }
  destruct (noCookingTime p) eqn:Hz; [| now left].
  right.
  assert (Hown : errorMessage (container (validatedInputs p) CookingTimeGroup)
                 = None).
  { unfold validatedInputs. rewrite validateInput_frame by reflexivity.
    set (p2 := page (validateInput OriginalMinutes
                       (page (validateInput OriginalWattage p)))).
    assert (Hv : forall i, value p2 i = value p i).
    { intros i. unfold p2.
      rewrite (proj1 (preserves_validateInput OriginalMinutes _)).
      apply (preserves_validateInput OriginalWattage p). }
    apply (validateInput_accepted_display OriginalSeconds p2);
      [| reflexivity].
    rewrite Hv. apply rejection_none_seconds.
    unfold noCookingTime, JS.parseInt in Hz.
    apply andb_prop in Hz. destruct Hz as (_ & Hs).
    apply Z.eqb_eq in Hs. left. lia. }
  revert Hrow Hown. generalize (validatedInputs p). intros q Hrow Hown.
  page_cases; reflexivity.
Qed.

Lemma clearGroups_messages (p : Page) :
  errorMessage (container p TimeRow) = None \/
  errorMessage (container p CookingTimeGroup) = None ->
  forall h,
    errorMessage (container (page (clearGroups formGroups p)) h) = None.
Proof.
  intros Hone h. unfold formGroups, clearGroups.
  destruct h; page_cases; try reflexivity;
    destruct Hone as [Hone | Hone]; congruence.
Qed.

Lemma clearGroups_classes (p : Page) (g : ContainerId) :
  In g formGroups ->
  classError (container (page (clearGroups formGroups p)) g) = false /\
  classSuccess (container (page (clearGroups formGroups p)) g) = false.
Proof.
  intros Hg. cbn in Hg. unfold formGroups, clearGroups.
  destruct Hg as [<- | [<- | [<- | []]]]; page_cases; split; reflexivity.
Qed.

Lemma clearGroups_contents (groups : list ContainerId) :
  preserves (clearGroups groups).
Proof.
  induction groups as [| g rest IH]; cbn [clearGroups];
    [apply preserves_ret |].
  apply preserves_bind; [apply preserves_setClasses | intros _].
  apply preserves_bind; [apply preserves_removeErrorMessage | intros _].
  exact IH.
Qed.

Lemma resetForm_contents (p : Page) :
  (forall input, value (page (resetForm p)) input = defaultValue input) /\
  resultHidden (page (resetForm p)) = true.
Proof.
  unfold resetForm. rewrite !page_bind. cbn [modify returned page].
  match goal with
  | |- context [page (clearGroups formGroups ?q)] =>
      destruct (clearGroups_contents formGroups q) as (Hv & _ & _ & Hh)
  end.
  split.
  - intros input. rewrite Hv. destruct input; reflexivity.
  - rewrite Hh. reflexivity.
Qed.

Lemma setClasses_container_ext (g : ContainerId) (error success : bool)
    (p q : Page) :
  container q = container p ->
  container (setClasses g error success q)
  = container (setClasses g error success p).
Proof. intros Hc. unfold setClasses, setContainer. cbn. now rewrite Hc. Qed.

Lemma removeErrorMessage_container_ext (g : ContainerId) (p q : Page) :
  container q = container p ->
  container (removeErrorMessage g q) = container (removeErrorMessage g p).
Proof.
  intros Hc. unfold removeErrorMessage, querySelector_error_message.
  rewrite Hc.
  repeat match goal with
         | |- context [match ?x with _ => _ end] => destruct x
         end; cbn; rewrite ?Hc; reflexivity.
Qed.

Lemma clearGroups_container_ext (groups : list ContainerId) :
  forall p q,
    container q = container p ->
    container (page (clearGroups groups q))
    = container (page (clearGroups groups p)).
Proof.
  induction groups as [| g rest IH]; intros p q Hc; cbn [clearGroups].
  - exact Hc.
  - rewrite !page_bind. cbn [modify returned page].
    apply IH, removeErrorMessage_container_ext, setClasses_container_ext, Hc.
Qed.

Lemma resetForm_container (p : Page) :
  forall h,
    container (page (resetForm p)) h
    = container (page (clearGroups formGroups p)) h.
Proof.
  intros h. unfold resetForm. rewrite !page_bind.
  cbn [modify returned page].
  now rewrite (clearGroups_container_ext formGroups p).
Qed.

(** X21. [resetForm] puts the contents back to those of the loaded page
    (no original wattage, 0 minutes, 0 seconds, 700 W), hides the result and
    takes the classes [error] and [success] off the three input groups; the
    form it leaves is one [handleSubmit] refuses, so the result stays
    hidden.  After any [validateForm] it also leaves no error message in
    any container. *)
Theorem resetForm_outcome (p : Page) :
  let q := page (resetForm p) in
  (forall input, value q input = defaultValue input) /\
  resultHidden q = true /\
  (forall g, In g formGroups ->
             classError (container q g) = false /\
             classSuccess (container q g) = false) /\
  returned (validateForm q) = false /\
  resultHidden (page (handleSubmit q)) = true /\
  (forall h,
     errorMessage
       (container (page (resetForm (page (validateForm p)))) h) = None).
Proof.
  cbv zeta. destruct (resetForm_contents p) as (Hv & Hh).
  assert (Hr : returned (validateForm (page (resetForm p))) = false).
  { rewrite validateForm_returned. unfold inputs. cbn [forallb].
    unfold accepts at 1. rewrite Hv. reflexivity. }
  split; [exact Hv |]. split; [exact Hh |]. split; [| split; [| split]].
  - intros g Hg. rewrite resetForm_container.
    now apply clearGroups_classes.
  - exact Hr.
  - rewrite handleSubmit_rejected_page by exact Hr.
    rewrite (proj2 (proj2 (proj2 (preserves_validateForm _)))). exact Hh.
  - intros h. rewrite resetForm_container.
    apply clearGroups_messages, validateForm_one_time_message.
Qed.

(** X22. The Escape key always leaves the result hidden: when a result is
    shown it resets the form, so the contents are those of the loaded page;
    when none is shown it leaves the contents as they are. *)
Theorem escapeKey_outcome (p : Page) :
  let q := page (escapeKey p) in
  resultHidden q = true /\
  (forall input,
     value q input
     = if resultHidden p then value p input else defaultValue input).
Proof.
  cbv zeta. unfold escapeKey. rewrite page_bind. cbn [read returned page].
  destruct (resultHidden p) eqn:Hh; cbn [negb].
  - split; [exact Hh | reflexivity].
  - split; apply resetForm_contents.
Qed.

Lemma commonWattages_valid :
  Forall (fun w => 100 <= w <= 2000) QuickSelect.commonWattages.
Proof. unfold QuickSelect.commonWattages. repeat constructor; lia. Qed.

Lemma commonTimes_valid :
  Forall (fun t =>
            0 <= QuickSelect.minutes t <= 60 /\
            0 <= QuickSelect.seconds t <= 59 /\
            ~ (QuickSelect.minutes t = 0 /\ QuickSelect.seconds t = 0) /\
            QuickSelect.label t
            = formatTime (QuickSelect.minutes t) (QuickSelect.seconds t))
         QuickSelect.commonTimes.
Proof.
  unfold QuickSelect.commonTimes.
  repeat constructor;
    cbn [QuickSelect.minutes QuickSelect.seconds QuickSelect.label];
    try lia; reflexivity.
Qed.

(** X23. Any choice of quick-select buttons gives a form that
    [validateForm] accepts: with a common wattage clicked for each wattage
    input and a common time clicked, the form holds a valid request.  The
    text on every time button is [formatTime] of the time it sets. *)
Theorem quickSelect_accepted (original target : Z)
    (time : QuickSelect.CommonTime) (p : Page) :
  In original QuickSelect.commonWattages ->
  In target QuickSelect.commonWattages ->
  In time QuickSelect.commonTimes ->
  let q := QuickSelect.clickTime time
             (QuickSelect.clickWattage TargetWattage target
                (QuickSelect.clickWattage OriginalWattage original p)) in
  let data := mkFormData original (QuickSelect.minutes time)
                (QuickSelect.seconds time) target in
  returned (validateForm q) = true /\
  getFormData q = Some data /\
  validRequest data /\
  QuickSelect.label time
  = formatTime (QuickSelect.minutes time) (QuickSelect.seconds time).
Proof.
  intros Ho Ht Htime q data.
  pose proof (proj1 (Forall_forall _ _) commonWattages_valid _ Ho) as Hwo.
  pose proof (proj1 (Forall_forall _ _) commonWattages_valid _ Ht) as Hwt.
  destruct (proj1 (Forall_forall _ _) commonTimes_valid _ Htime)
    as (Hm & Hs & Hz & Hl).
  cbv beta in Hwo, Hwt.
  assert (Hd : getFormData q = Some data) by reflexivity.
  split; [| split; [exact Hd | split; [| exact Hl]]].
  - apply validateForm_accepted_request. exists data. split; [exact Hd |].
    subst data.
    cbn [originalWattage targetWattage originalMinutes originalSeconds].
    refine (conj _ (conj _ (conj _ (conj _ Hz)))); lia.
  - unfold validRequest. subst data.
    cbn [originalWattage targetWattage originalMinutes originalSeconds].
    refine (conj _ (conj _ (conj _ (conj _ Hz)))); lia.
Qed.

Lemma quickSelect_accepted_witness :
  let q := QuickSelect.clickTime (QuickSelect.mkCommonTime "2m 30s" 2 30)
             (QuickSelect.clickWattage TargetWattage 700
                (QuickSelect.clickWattage OriginalWattage 1000
                   (loaded (fun _ => None)))) in
  returned (validateForm q) = true /\
  getFormData q = Some (mkFormData 1000 2 30 700) /\
  validRequest (mkFormData 1000 2 30 700) /\
  "2m 30s" = formatTime 2 30.
Proof.
  apply (quickSelect_accepted 1000 700 (QuickSelect.mkCommonTime "2m 30s" 2 30)
           (loaded (fun _ => None))); simpl; tauto.
Defined.

(** X24. For a total below one hour [Utils.formatCookingTime] gives the
    text [formatTime] gives for its minutes and seconds. *)
Theorem formatCookingTime_formatTime (totalSeconds : Z) :
  0 <= totalSeconds < 3600 ->
  Utils.formatCookingTime totalSeconds
  = formatTime (totalSeconds / 60) (totalSeconds mod 60).
Proof.
  intros Ht. unfold Utils.formatCookingTime, formatTime, JS.rem.
  rewrite !Math_floor_quotient.
  rewrite (Z.div_small totalSeconds 3600) by lia.
  rewrite (Z.rem_small totalSeconds 3600) by lia.
  rewrite (Z.rem_mod_nonneg totalSeconds 60) by lia.
  reflexivity.
Qed.

Lemma formatCookingTime_formatTime_witness :
  Utils.formatCookingTime 171 = formatTime (171 / 60) (171 mod 60).
Proof. apply (formatCookingTime_formatTime 171). lia. Defined.

Example formatCookingTime_hours :
  Utils.formatCookingTime 3661 = "1h 1m 1s" /\
  Utils.formatCookingTime 3600 = "1h" /\
  Utils.formatCookingTime 0 = "0s".
Proof. repeat split. Qed.

(** ** The recommendation in integers *)

Lemma Qle_bool_quotient (a b c d : Z) :
  0 < b -> 0 < d ->
  Qle_bool (inject_Z a / inject_Z b) (inject_Z c / inject_Z d)
  = (a * d <=? c * b).
Proof.
  intros Hb Hd.
  destruct b as [| pb | pb]; try lia. destruct d as [| pd | pd]; try lia.
  unfold Qle_bool, Qdiv, Qmult, Qinv, inject_Z. cbn [Qnum Qden].
  now rewrite !Pos.mul_1_l, !Z.mul_1_r.
Qed.

Lemma getPowerLevelRecommendation_integer (original target : Z) :
  0 < target ->
  Utils.getPowerLevelRecommendation original target =
  if 3 * target <? 2 * original
  then {| Utils.powerLevel := "70-80%";
          Utils.reason := "Your microwave is much more powerful. Consider using a lower power level." |}
  else if 10 * original <? 7 * target
  then {| Utils.powerLevel := "100%";
          Utils.reason := "Your microwave is less powerful. Use full power and check frequently." |}
  else {| Utils.powerLevel := "100%";
          Utils.reason := "Your microwave power is similar to the recipe. Use normal power." |}.
Proof.
  intros Ht. unfold Utils.getPowerLevelRecommendation.
  change (3 # 2)%Q with (inject_Z 3 / inject_Z 2)%Q.
  change (7 # 10)%Q with (inject_Z 7 / inject_Z 10)%Q.
  rewrite !Qle_bool_quotient by lia.
  rewrite (Z.ltb_antisym (2 * original)), (Z.ltb_antisym (7 * target)).
  replace (original * 2) with (2 * original) by ring.
  replace (original * 10) with (10 * original) by ring.
  reflexivity.
Qed.

(** X25. The recommendation depends only on the proportion of the two
    wattages: multiplying both by the same positive factor gives the same
    recommendation. *)
Theorem getPowerLevelRecommendation_scale (original target k : Z) :
  0 < target -> 0 < k ->
  Utils.getPowerLevelRecommendation (k * original) (k * target)
  = Utils.getPowerLevelRecommendation original target.
Proof.
  intros Ht Hk. rewrite !getPowerLevelRecommendation_integer by nia.
  assert (H1 : (3 * (k * target) <? 2 * (k * original))
               = (3 * target <? 2 * original)).
  { destruct (Z.ltb_spec (3 * target) (2 * original));
      destruct (Z.ltb_spec (3 * (k * target)) (2 * (k * original)));
      try reflexivity; nia. }
  assert (H2 : (10 * (k * original) <? 7 * (k * target))
               = (10 * original <? 7 * target)).
  { destruct (Z.ltb_spec (10 * original) (7 * target));
      destruct (Z.ltb_spec (10 * (k * original)) (7 * (k * target)));
      try reflexivity; nia. }
  now rewrite H1, H2.
Qed.

Lemma getPowerLevelRecommendation_scale_witness :
  Utils.getPowerLevelRecommendation 1000 600
  = Utils.getPowerLevelRecommendation 5 3.
Proof.
  apply (getPowerLevelRecommendation_scale 5 3 200); lia.
Defined.

(** X26. When the recommendation for a recipe wattage and a target wattage
    is the lower power level "70-80%", the recommendation with the two
    wattages exchanged is full power with the less-powerful reason. *)
Theorem getPowerLevelRecommendation_exchanged (original target : Z) :
  0 < original -> 0 < target ->
  Utils.powerLevel (Utils.getPowerLevelRecommendation original target)
  = "70-80%" ->
  Utils.getPowerLevelRecommendation target original
  = {| Utils.powerLevel := "100%";
       Utils.reason := "Your microwave is less powerful. Use full power and check frequently." |}.
Proof.
  intros Ho Ht. rewrite !getPowerLevelRecommendation_integer by lia.
  destruct (Z.ltb_spec (3 * target) (2 * original)) as [Hhigh | _].
  - intros _.
    destruct (Z.ltb_spec (3 * original) (2 * target)); [lia |].
    destruct (Z.ltb_spec (10 * target) (7 * original)); [reflexivity | lia].
  - destruct (10 * original <? 7 * target); cbn; discriminate.
Qed.

Lemma getPowerLevelRecommendation_exchanged_witness :
  Utils.getPowerLevelRecommendation 600 1000
  = {| Utils.powerLevel := "100%";
       Utils.reason := "Your microwave is less powerful. Use full power and check frequently." |}.
Proof.
  apply (getPowerLevelRecommendation_exchanged 1000 600); try lia.
  reflexivity.
Defined.

(** ** The rendered time determines the time *)

Lemma toString_injective (a b : Z) : JS.toString a = JS.toString b -> a = b.
Proof.
  unfold JS.toString. intros H.
  apply DecimalZ.to_int_inj.
  assert (Hnil : forall z, Z.to_int z <> Decimal.Pos Decimal.Nil /\
                           Z.to_int z <> Decimal.Neg Decimal.Nil).
  { intros [| p | p]; cbn; split; try discriminate;
      intros [= Hp]; now apply DecimalPos.Unsigned.to_uint_nonnil in Hp. }
  pose proof (NilZero.isi _ (proj1 (Hnil a)) (proj2 (Hnil a))) as Ha.
  pose proof (NilZero.isi _ (proj1 (Hnil b)) (proj2 (Hnil b))) as Hb.
  rewrite H, Hb in Ha. now injection Ha.
Qed.

Lemma string_of_uint_digits (d : Decimal.uint) :
  allDigits (NilEmpty.string_of_uint d) = true.
Proof. induction d; cbn; auto. Qed.

Lemma toString_digits (n : Z) :
  0 <= n -> allDigits (JS.toString n) = true /\ JS.toString n <> "".
Proof.
  intros Hn. unfold JS.toString.
  destruct n as [| p | p]; [split; [reflexivity | discriminate] | | lia].
  cbn [Z.to_int NilZero.string_of_int NilZero.string_of_uint].
  pose proof (DecimalPos.Unsigned.to_uint_nonnil p) as Hp.
  destruct (Pos.to_uint p) eqn:Hd; try (now elim Hp);
    (split; [apply (string_of_uint_digits (_ u)) | discriminate]).
Qed.

(** Two texts that start with digits and continue with something else
    agree digit by digit. *)
Lemma digits_split (d1 d2 : string) (c1 c2 : ascii) (r1 r2 : string) :
  allDigits d1 = true -> allDigits d2 = true ->
  isDigit c1 = false -> isDigit c2 = false ->
  d1 ++ String c1 r1 = d2 ++ String c2 r2 ->
  d1 = d2 /\ c1 = c2 /\ r1 = r2.
Proof.
  revert d2. induction d1 as [| x d1 IH]; intros [| y d2] H1 H2 Hc1 Hc2 H;
    cbn in H1, H2, H; apply andb_prop in H1 || idtac;
    apply andb_prop in H2 || idtac.
  - injection H as -> ->. auto.
  - injection H as -> _. destruct H2 as (Hy & _). congruence.
  - injection H as -> _. destruct H1 as (Hx & _). congruence.
  - injection H as -> H. destruct H1 as (_ & H1), H2 as (_ & H2).
    destruct (IH d2 H1 H2 Hc1 Hc2 H) as (-> & -> & ->). auto.
Qed.

Lemma unit_split (a b : Z) (c1 c2 : ascii) (r1 r2 : string) :
  0 <= a -> 0 <= b -> isDigit c1 = false -> isDigit c2 = false ->
  JS.toString a ++ String c1 r1 = JS.toString b ++ String c2 r2 ->
  a = b /\ c1 = c2 /\ r1 = r2.
Proof.
  intros Ha Hb Hc1 Hc2 H.
  destruct (toString_digits a Ha) as (Hda & _).
  destruct (toString_digits b Hb) as (Hdb & _).
  destruct (digits_split _ _ _ _ _ _ Hda Hdb Hc1 Hc2 H) as (Hab & Hc & Hr).
  split; [now apply toString_injective | now split].
Qed.

Lemma formatTime_shape (minutes seconds : Z) :
  0 <= minutes -> 0 <= seconds ->
  formatTime minutes seconds =
  if 0 <? minutes
  then if 0 <? seconds
       then JS.toString minutes ++ "m " ++ JS.toString seconds ++ "s"
       else JS.toString minutes ++ "m"
  else JS.toString seconds ++ "s".
Proof.
  intros Hm Hs.
  destruct (Z.ltb_spec 0 minutes) as [Hpos | Hzero].
  - destruct (Z.ltb_spec 0 seconds) as [Hspos | Hszero].
    + now apply formatTime_minutes_seconds.
    + replace seconds with 0 by lia. now apply formatTime_whole_minutes.
  - replace minutes with 0 by lia. apply formatTime_seconds_only.
Qed.

(** X27. [formatTime] loses nothing: two times with minutes and seconds
    that are not negative and the same rendering are the same time. *)
Theorem formatTime_injective (m1 s1 m2 s2 : Z) :
  0 <= m1 -> 0 <= s1 -> 0 <= m2 -> 0 <= s2 ->
  formatTime m1 s1 = formatTime m2 s2 ->
  m1 = m2 /\ s1 = s2.
Proof.
  intros Hm1 Hs1 Hm2 Hs2.
  rewrite !formatTime_shape by assumption.
  destruct (Z.ltb_spec 0 m1), (Z.ltb_spec 0 s1),
           (Z.ltb_spec 0 m2), (Z.ltb_spec 0 s2); intros Heq;
    apply unit_split in Heq; try lia; try reflexivity;
    destruct Heq as (Hn & Hc & Hr);
    try discriminate Hc; try discriminate Hr; try lia.
  injection Hr as Hr.
  apply unit_split in Hr; try lia; reflexivity.
Qed.

Lemma formatTime_injective_witness :
  formatTime 2 51 = formatTime (171 / 60) (171 mod 60) /\
  (2 = 171 / 60 /\ 51 = 171 mod 60).
Proof.
  split; [reflexivity |].
  apply (formatTime_injective 2 51 (171 / 60) (171 mod 60));
    try (vm_compute; discriminate); reflexivity.
Defined.

Lemma minutes_seconds_text_injective (m1 s1 m2 s2 : Z) :
  0 <= m1 -> 0 <= s1 -> 0 <= m2 -> 0 <= s2 ->
  (if 0 <? m1
   then JS.toString m1 ++ "m " ++ JS.toString s1 ++ "s"
   else JS.toString s1 ++ "s")
  = (if 0 <? m2
     then JS.toString m2 ++ "m " ++ JS.toString s2 ++ "s"
     else JS.toString s2 ++ "s") ->
  m1 = m2 /\ s1 = s2.
Proof.
  intros Hm1 Hs1 Hm2 Hs2.
  destruct (Z.ltb_spec 0 m1), (Z.ltb_spec 0 m2); intros Heq;
    apply unit_split in Heq; try lia; try reflexivity;
    destruct Heq as (Hn & Hc & Hr);
    try discriminate Hc; try lia.
  injection Hr as Hr.
  apply unit_split in Hr; try lia; reflexivity.
Qed.

(** X28. The converted time shown determines the converted time: two valid
    requests whose results are rendered by the same text have the same
    converted total, minutes and seconds. *)
Theorem timeString_injective (a b : FormData) :
  validRequest a -> validRequest b ->
  timeString (calculateConversion a) = timeString (calculateConversion b) ->
  newTotalSeconds (calculateConversion a)
  = newTotalSeconds (calculateConversion b) /\
  newMinutes (calculateConversion a) = newMinutes (calculateConversion b) /\
  newSeconds (calculateConversion a) = newSeconds (calculateConversion b).
Proof.
  intros (Hoa & Hta & Hma & Hsa & _) (Hob & Htb & Hmb & Hsb & _) Heq.
  destruct (conversion_recompose a) as (Ha & Hsa' & Hma'); try lia.
  destruct (conversion_recompose b) as (Hb & Hsb' & Hmb'); try lia.
  revert Heq Ha Hsa' Hma' Hb Hsb' Hmb'.
  generalize (calculateConversion a) (calculateConversion b).
  intros ra rb Heq Ha Hsa' Hma' Hb Hsb' Hmb'.
  assert (Hshape : forall r,
             timeString r =
             if 0 <? newMinutes r
             then JS.toString (newMinutes r) ++ "m "
                  ++ JS.toString (newSeconds r) ++ "s"
             else JS.toString (newSeconds r) ++ "s").
  { intros r. destruct (Z.ltb_spec 0 (newMinutes r)).
    - now apply timeString_minutes.
    - now apply timeString_seconds_only. }
  rewrite !Hshape in Heq.
  apply minutes_seconds_text_injective in Heq; lia.
Qed.
Lemma timeString_injective_witness :
  newTotalSeconds (calculateConversion (mkFormData 1000 2 0 700))
  = newTotalSeconds (calculateConversion (mkFormData 500 2 0 350)) /\
  newMinutes (calculateConversion (mkFormData 1000 2 0 700))
  = newMinutes (calculateConversion (mkFormData 500 2 0 350)) /\
  newSeconds (calculateConversion (mkFormData 1000 2 0 700))
  = newSeconds (calculateConversion (mkFormData 500 2 0 350)).
Proof.
  apply (timeString_injective (mkFormData 1000 2 0 700)
           (mkFormData 500 2 0 350));
    [unfold validRequest; simpl; lia | unfold validRequest; simpl; lia
    | reflexivity].
Defined.
